(** * Planar normalizing flows

    A shallow embedding of [src/generative/normalizing_flow.py]: the planar
    flow layer and the four random variables built on it, over a model of
    the TensorFlow operations the file calls.

    Tensors carry their static shape and their elements addressed by
    multi-index.  Every TensorFlow call that can reject its arguments
    (broadcasting, [tf.matmul], [tf.slice], [tf.concat], ...) returns a
    [result], so a Python exception is an [Err].  The element type is a
    parameter ([Scalar]): the shape and data-flow theorems hold for any
    arithmetic; the reversibility bound is proved for the real numbers
    and shown to fail by rounding in IEEE double arithmetic. *)

From Stdlib Require Import Floats.
From Stdlib Require Import List Arith ZArith Lia Bool Reals Lra.
Import ListNotations.

(** ** Python exceptions *)

Inductive error := ValueError | IndexError | AttributeError | TypeError.

Inductive result (A : Type) :=
| Ok (a : A)
| Err (e : error).
Arguments Ok {A} a.
Arguments Err {A} e.

Definition bind {A B : Type} (m : result A) (k : A -> result B) : result B :=
  match m with
  | Ok a => k a
  | Err e => Err e
  end.

Notation "x <- m ;; k" := (bind m (fun x => k))
  (at level 61, m at next level, right associativity).
Notation "' p <- m ;; k" := (bind m (fun x => match x with p => k end))
  (at level 61, p pattern, m at next level, right associativity).

(** [for x in xs: acc = body(acc, x)], stopping at the first exception. *)
Fixpoint for_each {A S : Type} (body : S -> A -> result S) (xs : list A) (acc : S)
  : result S :=
  match xs with
  | [] => Ok acc
  | x :: xs' => acc' <- body acc x ;; for_each body xs' acc'
  end.

(** [[f(x) for x in xs]] where [f] may raise. *)
Fixpoint map_result {A B : Type} (f : A -> result B) (xs : list A) : result (list B) :=
  match xs with
  | [] => Ok []
  | x :: xs' => y <- f x ;; ys <- map_result f xs' ;; Ok (y :: ys)
  end.

(** [enumerate(xs)]. *)
Definition enumerate {A : Type} (xs : list A) : list (nat * A) :=
  combine (seq 0 (length xs)) xs.

(** [xs[i]] on a Python list. *)
Definition py_index {A : Type} (xs : list A) (i : nat) : result A :=
  match nth_error xs i with
  | Some x => Ok x
  | None => Err IndexError
  end.

(** ** Element arithmetic *)

Class Scalar (T : Type) := {
  s_of_Z : Z -> T;
  s_add : T -> T -> T;
  s_sub : T -> T -> T;
  s_mul : T -> T -> T;
  s_div : T -> T -> T;
  s_neg : T -> T;
  s_abs : T -> T;
  s_log : T -> T;
  s_tanh : T -> T;
  s_softplus : T -> T;
  s_pow : T -> nat -> T
}.

(** Exact real arithmetic, the idealisation in which the reversibility
    bound holds.  The arithmetic the code runs in is [binary64_Scalar]
    below. *)
#[export] Instance R_Scalar : Scalar R := {
  s_of_Z := IZR;
  s_add := Rplus;
  s_sub := Rminus;
  s_mul := Rmult;
  s_div := Rdiv;
  s_neg := Ropp;
  s_abs := Rabs;
  s_log := ln;
  s_tanh := tanh;
  s_softplus := fun x => ln (1 + exp x);
  s_pow := pow
}.

(** ** Tensors and the TensorFlow operations of the source *)

Section Tensor.
Context {T : Type} {ST : Scalar T}.

Record tensor := mkTensor {
  shape : list nat;
  get : list nat -> T
}.

(** Sum of [f 0 .. f (n-1)], accumulated left to right from zero. *)
Definition tsum (n : nat) (f : nat -> T) : T :=
  fold_left (fun acc k => s_add acc (f k)) (seq 0 n) (s_of_Z 0).

Fixpoint shape_eqb (a b : list nat) : bool :=
  match a, b with
  | [], [] => true
  | x :: a', y :: b' => (x =? y) && shape_eqb a' b'
  | _, _ => false
  end.

(** *** Broadcasting *)

Definition bdim (x y : nat) : result nat :=
  if x =? y then Ok x
  else if x =? 1 then Ok y
  else if y =? 1 then Ok x
  else Err ValueError.

Fixpoint broadcast_rev (a b : list nat) : result (list nat) :=
  match a, b with
  | [], _ => Ok b
  | _, [] => Ok a
  | x :: a', y :: b' =>
      d <- bdim x y ;; r <- broadcast_rev a' b' ;; Ok (d :: r)
  end.

Definition broadcast_shape (a b : list nat) : result (list nat) :=
  r <- broadcast_rev (rev a) (rev b) ;; Ok (rev r).

(** Index into an axis of size [d] for position [i] of the result. *)
Definition bi (d i : nat) : nat := if d =? 1 then 0 else i.

Definition broadcast_index (sh idx : list nat) : list nat :=
  map (fun di => bi (fst di) (snd di))
      (combine sh (skipn (length idx - length sh) idx)).

Definition tf_binop (f : T -> T -> T) (x y : tensor) : result tensor :=
  sh <- broadcast_shape (shape x) (shape y) ;;
  Ok {| shape := sh;
        get := fun idx => f (get x (broadcast_index (shape x) idx))
                            (get y (broadcast_index (shape y) idx)) |}.

Definition tf_add := tf_binop s_add.
Definition tf_subtract := tf_binop s_sub.
Definition tf_multiply := tf_binop s_mul.
Definition tf_divide := tf_binop s_div.

(** A Python number used where a tensor is expected. *)
Definition tf_constant (c : T) : tensor := {| shape := []; get := fun _ => c |}.

(** *** Element-wise functions *)

Definition tf_map (f : T -> T) (x : tensor) : tensor :=
  {| shape := shape x; get := fun idx => f (get x idx) |}.

Definition tf_tanh := tf_map s_tanh.
Definition tf_softplus := tf_map s_softplus.
Definition tf_log := tf_map s_log.
Definition tf_abs := tf_map s_abs.
Definition tf_negative := tf_map s_neg.
Definition tf_pow (x : tensor) (n : nat) := tf_map (fun v => s_pow v n) x.

(** *** Reductions and products *)

Definition tf_reduce_sum (x : tensor) (axis : nat) (keepdims : bool) : result tensor :=
  match nth_error (shape x) axis with
  | None => Err ValueError
  | Some d =>
      Ok {| shape := firstn axis (shape x) ++ (if keepdims then [1] else [])
                     ++ skipn (S axis) (shape x);
            get := fun idx =>
              tsum d (fun k =>
                get x (firstn axis idx ++ k
                       :: skipn (if keepdims then S axis else axis) idx)) |}
  end.

(** [tf.matmul(a, b, transpose_b=...)]: the last two axes are multiplied,
    the leading (batch) axes must agree. *)
Definition tf_matmul (a b : tensor) (transpose_b : bool) : result tensor :=
  let r := length (shape a) in
  if (r <? 2) || negb (r =? length (shape b)) then Err ValueError else
  let batch := firstn (r - 2) (shape a) in
  let m := nth (r - 2) (shape a) 0 in
  let k := nth (r - 1) (shape a) 0 in
  let kb := nth (if transpose_b then r - 1 else r - 2) (shape b) 0 in
  let n := nth (if transpose_b then r - 2 else r - 1) (shape b) 0 in
  if shape_eqb batch (firstn (r - 2) (shape b)) && (k =? kb) then
    Ok {| shape := batch ++ [m; n];
          get := fun idx =>
            let p := firstn (r - 2) idx in
            let i := nth (r - 2) idx 0 in
            let j := nth (r - 1) idx 0 in
            tsum k (fun l =>
              s_mul (get a (p ++ [i; l]))
                    (get b (p ++ (if transpose_b then [j; l] else [l; j])))) |}
  else Err ValueError.

(** *** Shape manipulation *)

Definition tf_expand_dims (x : tensor) (axis : nat) : result tensor :=
  if axis <=? length (shape x) then
    Ok {| shape := firstn axis (shape x) ++ 1 :: skipn axis (shape x);
          get := fun idx => get x (firstn axis idx ++ skipn (S axis) idx) |}
  else Err ValueError.

(** [tf.squeeze(x)] with no [axis]: every axis of size 1 is removed. *)
Definition squeeze_shape (sh : list nat) : list nat :=
  filter (fun d => negb (d =? 1)) sh.

Fixpoint unsqueeze_index (sh idx : list nat) : list nat :=
  match sh with
  | [] => []
  | d :: sh' =>
      if d =? 1 then 0 :: unsqueeze_index sh' idx
      else match idx with
           | [] => []
           | i :: idx' => i :: unsqueeze_index sh' idx'
           end
  end.

Definition tf_squeeze (x : tensor) : tensor :=
  {| shape := squeeze_shape (shape x);
     get := fun idx => get x (unsqueeze_index (shape x) idx) |}.

(** One axis of [tf.slice]: [size = -1] takes everything from [begin]. *)
Definition slice_dim (d b : nat) (s : Z) : result nat :=
  if (s =? -1)%Z then (if b <=? d then Ok (d - b) else Err ValueError)
  else if (0 <=? s)%Z && (b + Z.to_nat s <=? d) then Ok (Z.to_nat s)
  else Err ValueError.

Fixpoint slice_shape (sh begin : list nat) (size : list Z) : result (list nat) :=
  match sh, begin, size with
  | [], [], [] => Ok []
  | d :: sh', b :: begin', s :: size' =>
      n <- slice_dim d b s ;; r <- slice_shape sh' begin' size' ;; Ok (n :: r)
  | _, _, _ => Err ValueError
  end.

Definition tf_slice (x : tensor) (begin : list nat) (size : list Z) : result tensor :=
  sh <- slice_shape (shape x) begin size ;;
  Ok {| shape := sh;
        get := fun idx =>
          get x (map (fun p => fst p + snd p) (combine begin idx)) |}.

Definition replace_at (v axis : nat) (l : list nat) : list nat :=
  firstn axis l ++ v :: skipn (S axis) l.

Fixpoint concat_get (axis : nat) (ts : list tensor) (idx : list nat) : T :=
  match ts with
  | [] => s_of_Z 0
  | t :: ts' =>
      let i := nth axis idx 0 in
      let d := nth axis (shape t) 0 in
      if i <? d then get t idx
      else concat_get axis ts' (replace_at (i - d) axis idx)
  end.

(** [tf.concat(ts, axis)]: a non-empty list of tensors of one rank that
    agree on every axis but [axis]. *)
Definition tf_concat (ts : list tensor) (axis : nat) : result tensor :=
  match ts with
  | [] => Err ValueError
  | t0 :: _ =>
      if (axis <? length (shape t0))
         && forallb (fun t => (length (shape t) =? length (shape t0))
                              && shape_eqb (replace_at 0 axis (shape t))
                                           (replace_at 0 axis (shape t0))) ts
      then Ok {| shape := replace_at
                            (list_sum (map (fun t => nth axis (shape t) 0) ts))
                            axis (shape t0);
                 get := concat_get axis ts |}
      else Err ValueError
  end.

(** *** Random initialisation

    [np.random.normal(0, 1, shape)] consumes the next draws of a stream of
    standard-normal values. *)
Definition rng := nat -> T.

Definition flat_index (sh idx : list nat) : nat :=
  fold_left (fun acc di => acc * fst di + snd di) (combine sh idx) 0.

Definition np_random_normal (sh : list nat) (g : rng) : tensor * rng :=
  ({| shape := sh; get := fun idx => g (flat_index sh idx) |},
   fun k => g (fold_left Nat.mul sh 1 + k)).

(** *** Base distributions

    Either a [tf.distributions.Distribution] (used through [sample] and
    [log_prob]) or a precomputed [(samples, log_prob)] pair. *)
Inductive base_distribution :=
| Distribution (sample : list nat -> tensor) (log_prob : tensor -> tensor)
| Precomputed (samples log_prob : tensor).

Definition dist_sample (bd : base_distribution) (sh : list nat) : result tensor :=
  match bd with
  | Distribution sample _ => Ok (sample sh)
  | Precomputed _ _ => Err AttributeError
  end.

Definition dist_log_prob (bd : base_distribution) (x : tensor) : result tensor :=
  match bd with
  | Distribution _ log_prob => Ok (log_prob x)
  | Precomputed _ _ => Err AttributeError
  end.

End Tensor.

Arguments tensor T : clear implicits.
Arguments rng T : clear implicits.
Arguments base_distribution T : clear implicits.
Arguments bdim : simpl never.
Arguments bi : simpl never.
Arguments tsum : simpl never.
Arguments slice_dim : simpl never.

(** ** PlanarFlow *)

Module PlanarFlow.
Section WithScalar.
Context {T : Type} {ST : Scalar T}.

(** The constructor's first argument.  It is an int wherever the class is
    used as documented; [FlowConditionalVariable.set_up_flows] passes the
    bias tensor in that position. *)
Inductive dim_arg :=
| IntDim (n : nat)
| TensorDim (x : tensor T).

Record t := mk {
  dim : dim_arg;
  w : tensor T;
  b : tensor T;
  u : tensor T;
  u_bar : tensor T;
  n_flows : nat
}.

Definition get_flow_number (self : t) : nat := n_flows self.

Definition is_single_flow (self : t) : bool := n_flows self =? 1.

Definition create_flow_variables (dim : dim_arg) (g : rng T)
  : result (tensor T * tensor T * tensor T * rng T) :=
  match dim with
  | IntDim d =>
      let (w, g1) := np_random_normal [1; d] g in
      let (b, g2) := np_random_normal [1] g1 in
      let (u, g3) := np_random_normal [1; d] g2 in
      Ok (w, b, u, g3)
  | TensorDim _ => Err TypeError
  end.

Definition reversible_constraint (w u : tensor T) : result (tensor T) :=
  uw <- tf_multiply u w ;;
  dot <- tf_reduce_sum uw 1 true ;;
  m1 <- tf_add (tf_constant (s_of_Z (-1))) (tf_softplus dot) ;;
  scalar <- tf_subtract m1 dot ;;
  ww <- tf_multiply w w ;;
  norm_squared <- tf_reduce_sum ww 1 true ;;
  sw <- tf_multiply scalar w ;;
  comp <- tf_divide sw norm_squared ;;
  tf_add u comp.

Definition init (dim : dim_arg) (w b u : option (tensor T)) (g : rng T)
  : result (t * rng T) :=
  ' (w, b, u, g') <-
    match w, b, u with
    | Some w, Some b, Some u => Ok (w, b, u, g)
    | _, _, _ => create_flow_variables dim g
    end ;;
  u_bar <- reversible_constraint w u ;;
  n_flows <- match shape u with
             | d :: _ => Ok d
             | [] => Err IndexError
             end ;;
  Ok (mk dim w b u u_bar n_flows, g').

Definition transform (self : t) (inputs : tensor T) : result (tensor T) :=
  if is_single_flow self then
    xw <- tf_matmul inputs (w self) true ;;
    dialation <- tf_add xw (b self) ;;
    ut <- tf_multiply (u_bar self) (tf_tanh dialation) ;;
    tf_add inputs ut
  else
    w2 <- tf_expand_dims (w self) 2 ;;
    xw <- tf_matmul inputs w2 false ;;
    b1 <- tf_expand_dims (b self) 1 ;;
    b2 <- tf_expand_dims b1 2 ;;
    dialation <- tf_add xw b2 ;;
    u1 <- tf_expand_dims (u_bar self) 1 ;;
    ut <- tf_multiply u1 (tf_tanh dialation) ;;
    tf_add inputs ut.

Definition log_det_jacobian (self : t) (inputs : tensor T) : result (tensor T) :=
  if is_single_flow self then
    xw <- tf_matmul inputs (w self) true ;;
    dialation <- tf_add xw (b self) ;;
    psi <- tf_subtract (tf_constant (s_of_Z 1)) (tf_pow (tf_tanh dialation) 2) ;;
    uw <- tf_matmul (u_bar self) (w self) true ;;
    det_jac <- tf_multiply uw psi ;;
    j1 <- tf_add (tf_constant (s_of_Z 1)) det_jac ;;
    Ok (tf_negative (tf_squeeze (tf_log (tf_abs j1))))
  else
    w2 <- tf_expand_dims (w self) 2 ;;
    xw <- tf_matmul inputs w2 false ;;
    b1 <- tf_expand_dims (b self) 1 ;;
    b2 <- tf_expand_dims b1 2 ;;
    dialation <- tf_add xw b2 ;;
    psi <- tf_subtract (tf_constant (s_of_Z 1)) (tf_pow (tf_tanh dialation) 2) ;;
    uw <- tf_multiply (u_bar self) (w self) ;;
    dot <- tf_reduce_sum uw 1 true ;;
    dot <- tf_expand_dims dot 1 ;;
    det_jac <- tf_multiply dot psi ;;
    j1 <- tf_add (tf_constant (s_of_Z 1)) det_jac ;;
    Ok (tf_negative (tf_squeeze (tf_log (tf_abs j1)))).

(** [for i in range(n): flows.append(PlanarFlow(dim))]. *)
Fixpoint create_layers (dim : dim_arg) (n : nat) (g : rng T)
  : result (list t * rng T) :=
  match n with
  | 0 => Ok ([], g)
  | S n' =>
      ' (f, g1) <- init dim None None None g ;;
      ' (fs, g2) <- create_layers dim n' g1 ;;
      Ok (f :: fs, g2)
  end.

End WithScalar.
Arguments t T : clear implicits.
Arguments dim_arg T : clear implicits.
End PlanarFlow.

(** ** FlowRandomVariable *)

Module FlowRandomVariable.
Section WithScalar.
Context {T : Type} {ST : Scalar T}.

(** [tf.distributions.Normal(loc=np.zeros(dim), scale=np.ones(dim))],
    supplied by TensorFlow. *)
Variable tf_distributions_Normal : nat -> base_distribution T.

Record t := mk {
  dim : nat;
  num_layers : nat;
  base_dist : base_distribution T;
  flows : list (PlanarFlow.t T);
  (** the attribute the [else] branch of the constructor assigns *)
  num_layrs : option nat
}.

Definition default_num_layers : nat := 1.

Definition init (dim num_layers : nat) (flows : option (list (PlanarFlow.t T)))
    (base_dist : option (base_distribution T)) (g : rng T) : result (t * rng T) :=
  let base_dist := match base_dist with
                   | None => tf_distributions_Normal dim
                   | Some bd => bd
                   end in
  match flows with
  | None =>
      ' (fs, g') <- PlanarFlow.create_layers (PlanarFlow.IntDim dim) num_layers g ;;
      Ok (mk dim num_layers base_dist fs None, g')
  | Some fs =>
      Ok (mk dim num_layers base_dist fs (Some (length fs)), g)
  end.

Definition get_all_flow_params (self : t)
  : result (tensor T * tensor T * tensor T) :=
  let flow_range := seq 0 (num_layers self) in
  ws <- map_result (fun i => f <- py_index (flows self) i ;; Ok (PlanarFlow.w f))
                   flow_range ;;
  all_w <- tf_concat ws 1 ;;
  us <- map_result (fun i => f <- py_index (flows self) i ;; Ok (PlanarFlow.u f))
                   flow_range ;;
  all_u <- tf_concat us 1 ;;
  bs <- map_result (fun i => f <- py_index (flows self) i ;; Ok (PlanarFlow.b f))
                   flow_range ;;
  all_b <- tf_concat bs 0 ;;
  Ok (all_w, all_u, all_b).

(** The base samples and their log-density, before any flow is applied. *)
Definition base_sample_log_prob (self : t) (n_samples : nat)
  : result (tensor T * tensor T) :=
  match base_dist self with
  | Distribution sample log_prob =>
      f0 <- py_index (flows self) 0 ;;
      if PlanarFlow.is_single_flow f0 then
        let samples := sample [n_samples] in
        lp <- tf_reduce_sum (log_prob samples) 1 false ;;
        Ok (samples, lp)
      else
        let n_flows := PlanarFlow.get_flow_number f0 in
        let samples := sample [n_flows; n_samples] in
        lp <- tf_reduce_sum (log_prob samples) 2 false ;;
        Ok (samples, lp)
  | Precomputed samples log_prob => Ok (samples, log_prob)
  end.

Definition sample_log_prob (self : t) (n_samples : nat)
  : result (tensor T * tensor T) :=
  st <- base_sample_log_prob self n_samples ;;
  for_each (fun '(samples, log_prob) flow =>
              l <- PlanarFlow.log_det_jacobian flow samples ;;
              log_prob <- tf_add log_prob l ;;
              samples <- PlanarFlow.transform flow samples ;;
              Ok (samples, log_prob))
           (flows self) st.

Definition transform (self : t) (x : tensor T) : result (tensor T) :=
  for_each (fun x flow => PlanarFlow.transform flow x) (flows self) x.

End WithScalar.
Arguments t T : clear implicits.
End FlowRandomVariable.

(** ** FlowConditionalVariable *)

Module FlowConditionalVariable.
Section WithScalar.
Context {T : Type} {ST : Scalar T}.

Variable tf_distributions_Normal : nat -> base_distribution T.

(** [MultiLayerPerceptron(x, layers=..., activation=...).get_output_layer()]
    of the [variational] module: a freshly initialised feed-forward network
    applied to [x].  Only its contract is used: the output has one row per
    row of [x] and as many columns as the last entry of [layers]. *)
Variable MultiLayerPerceptron :
  tensor T -> list nat -> option (T -> T) -> rng T -> tensor T * rng T.

Record t := mk {
  y : tensor T;
  dim_x : nat;
  dim_y : nat;
  flow_layers : nat;
  n_points : nat;
  base_dist : option (base_distribution T);
  hidden_units : list nat;
  variable : FlowRandomVariable.t T;
  w : tensor T;
  u : tensor T;
  b : tensor T
}.

Definition default_hidden_units : list nat := [256; 128].

(** The body of [for i in range(self.flow_layers)]. *)
Definition slice_flow (all_w all_u all_b : tensor T) (dim_x : nat)
    (acc : list (PlanarFlow.t T) * rng T) (i : nat)
  : result (list (PlanarFlow.t T) * rng T) :=
  let (flows, g) := acc in
  w <- tf_slice all_w [0; i * dim_x] [(-1)%Z; Z.of_nat dim_x] ;;
  u <- tf_slice all_u [0; i * dim_x] [(-1)%Z; Z.of_nat dim_x] ;;
  b1 <- tf_slice all_b [0; i] [(-1)%Z; 1%Z] ;;
  let b := tf_squeeze b1 in
  ' (flow, g') <- PlanarFlow.init (PlanarFlow.TensorDim b) (Some w) (Some b) (Some u) g ;;
  Ok (flows ++ [flow], g').

Definition set_up_flows (y : tensor T) (dim_x flow_layers : nat)
    (hidden_units : list nat) (base_dist : option (base_distribution T)) (g : rng T)
  : result (FlowRandomVariable.t T * tensor T * tensor T * tensor T * rng T) :=
  let (all_w, g1) :=
    MultiLayerPerceptron y (hidden_units ++ [dim_x * flow_layers]) (Some s_tanh) g in
  let (all_u, g2) :=
    MultiLayerPerceptron y (hidden_units ++ [dim_x * flow_layers]) (Some s_tanh) g1 in
  let (all_b, g3) :=
    MultiLayerPerceptron y (hidden_units ++ [flow_layers]) (Some s_tanh) g2 in
  ' (flows, g4) <- for_each (slice_flow all_w all_u all_b dim_x)
                            (seq 0 flow_layers) ([], g3) ;;
  ' (variable, g5) <- FlowRandomVariable.init tf_distributions_Normal dim_x
                        FlowRandomVariable.default_num_layers (Some flows) base_dist g4 ;;
  Ok (variable, all_w, all_u, all_b, g5).

Definition init (dim_x : nat) (y : tensor T) (flow_layers : nat)
    (hidden_units : list nat) (base_dist : option (base_distribution T)) (g : rng T)
  : result (t * rng T) :=
  dim_y <- py_index (shape y) 1 ;;
  n_points <- py_index (shape y) 0 ;;
  ' (variable, all_w, all_u, all_b, g') <-
    set_up_flows y dim_x flow_layers hidden_units base_dist g ;;
  Ok (mk y dim_x dim_y flow_layers n_points base_dist hidden_units
         variable all_w all_u all_b, g').

Definition sample_log_prob (self : t) (n_samples : nat)
  : result (tensor T * tensor T) :=
  FlowRandomVariable.sample_log_prob (variable self) n_samples.

End WithScalar.
Arguments t T : clear implicits.
End FlowConditionalVariable.

(** ** DynaFlowRandomVariable *)

Module DynaFlowRandomVariable.
Section WithScalar.
Context {T : Type} {ST : Scalar T}.

Variable tf_distributions_Normal : nat -> base_distribution T.

Record t := mk {
  full_dim : nat;
  dim : nat;
  n_time : nat;
  num_layers : nat;
  base_dist : base_distribution T;
  flows : list (list (PlanarFlow.t T))
}.

(** [for t in range(n_time - 1)]: one stack of [num_layers] fresh flows of
    dimension [2 * dim] per pair of consecutive time steps. *)
Fixpoint setup_flow_layers (dim num_layers pairs : nat) (g : rng T)
  : result (list (list (PlanarFlow.t T)) * rng T) :=
  match pairs with
  | 0 => Ok ([], g)
  | S pairs' =>
      ' (stack, g1) <- PlanarFlow.create_layers (PlanarFlow.IntDim (2 * dim)) num_layers g ;;
      ' (rest, g2) <- setup_flow_layers dim num_layers pairs' g1 ;;
      Ok (stack :: rest, g2)
  end.

Definition init (dim time num_layers : nat)
    (base_dist : option (base_distribution T)) (g : rng T) : result (t * rng T) :=
  let full_dim := dim * time in
  let base_dist := match base_dist with
                   | None => tf_distributions_Normal full_dim
                   | Some bd => bd
                   end in
  ' (flows, g') <- setup_flow_layers dim num_layers (time - 1) g ;;
  Ok (mk full_dim dim time num_layers base_dist flows, g').

(** The body of [for layer in time_flow]. *)
Definition layer_step (st : tensor T * tensor T) (layer : PlanarFlow.t T)
  : result (tensor T * tensor T) :=
  let (log_prob, latent_pair) := st in
  l <- PlanarFlow.log_det_jacobian layer latent_pair ;;
  log_prob' <- tf_add log_prob l ;;
  latent_pair' <- PlanarFlow.transform layer latent_pair ;;
  Ok (log_prob', latent_pair').

(** The state the outer loop carries: [log_prob], [final_samples] and
    [pre_latent]. *)
Definition loop_state : Type := tensor T * list (tensor T) * tensor T.

(** The body of [for i, time_flow in enumerate(self.flows)]. *)
Definition time_step (dim : nat) (samples : tensor T) (single_time_latent_size : list Z)
    (st : loop_state) (it : nat * list (PlanarFlow.t T)) : result loop_state :=
  let '(log_prob, final_samples, pre_latent) := st in
  let (i, time_flow) := it in
  cur_latent <- tf_slice samples [0; (i + 1) * dim] single_time_latent_size ;;
  latent_pair <- tf_concat [pre_latent; cur_latent] 1 ;;
  ' (log_prob', latent_pair') <- for_each layer_step time_flow (log_prob, latent_pair) ;;
  out <- tf_slice latent_pair' [0; 0] single_time_latent_size ;;
  pre_latent' <- tf_slice latent_pair' [0; dim] single_time_latent_size ;;
  Ok (log_prob', final_samples ++ [out], pre_latent').

Definition sample_log_prob (self : t) (n_samples : nat)
  : result (tensor T * tensor T) :=
  samples <- dist_sample (base_dist self) [n_samples] ;;
  lp <- dist_log_prob (base_dist self) samples ;;
  log_prob <- tf_reduce_sum lp 1 false ;;
  let single_time_latent_size := [Z.of_nat n_samples; Z.of_nat (dim self)] in
  pre_latent <- tf_slice samples [0; 0] single_time_latent_size ;;
  ' (log_prob', final_samples, pre_latent') <-
    for_each (time_step (dim self) samples single_time_latent_size)
             (enumerate (flows self)) (log_prob, [], pre_latent) ;;
  final <- tf_concat (final_samples ++ [pre_latent']) 1 ;;
  Ok (final, log_prob').

End WithScalar.
Arguments t T : clear implicits.
End DynaFlowRandomVariable.

(** ** DynaFlowConditionalRandomVariable

    The object as its constructor leaves it; [sample_log_prob] reads
    [n_example], [dim], [base_dist] and [flows]. *)

Module DynaFlowConditionalRandomVariable.
Section WithScalar.
Context {T : Type} {ST : Scalar T}.

Record t := mk {
  full_dim : nat;
  dim : nat;
  n_time : nat;
  num_layers : nat;
  base_dist : base_distribution T;
  flows : list (list (PlanarFlow.t T));
  y : tensor T;
  n_example : nat;
  obs_dim : nat;
  u_mlp : tensor T;
  w_mlp : tensor T;
  b_mlp : tensor T
}.

Definition loop_state : Type := tensor T * list (tensor T) * tensor T.

(** The body of [for layer in time_flow], the same text in both branches. *)
Definition layer_step (st : tensor T * tensor T) (layer : PlanarFlow.t T)
  : result (tensor T * tensor T) :=
  let (log_prob, latent_pair) := st in
  l <- PlanarFlow.log_det_jacobian layer latent_pair ;;
  log_prob' <- tf_add log_prob l ;;
  latent_pair' <- PlanarFlow.transform layer latent_pair ;;
  Ok (log_prob', latent_pair').

(** The outer loop body of the [n_example == 1] branch. *)
Definition time_step_single (dim : nat) (samples : tensor T)
    (single_time_latent_size : list Z)
    (st : loop_state) (it : nat * list (PlanarFlow.t T)) : result loop_state :=
  let '(log_prob, final_samples, pre_latent) := st in
  let (i, time_flow) := it in
  cur_latent <- tf_slice samples [0; (i + 1) * dim] single_time_latent_size ;;
  latent_pair <- tf_concat [pre_latent; cur_latent] 1 ;;
  ' (log_prob', latent_pair') <- for_each layer_step time_flow (log_prob, latent_pair) ;;
  out <- tf_slice latent_pair' [0; 0] single_time_latent_size ;;
  pre_latent' <- tf_slice latent_pair' [0; dim] single_time_latent_size ;;
  Ok (log_prob', final_samples ++ [out], pre_latent').

(** The outer loop body of the [else] branch. *)
Definition time_step_batched (dim : nat) (samples : tensor T)
    (single_time_latent_size : list Z)
    (st : loop_state) (it : nat * list (PlanarFlow.t T)) : result loop_state :=
  let '(log_prob, final_samples, pre_latent) := st in
  let (i, time_flow) := it in
  cur_latent <- tf_slice samples [0; 0; (i + 1) * dim] single_time_latent_size ;;
  latent_pair <- tf_concat [pre_latent; cur_latent] 2 ;;
  ' (log_prob', latent_pair') <- for_each layer_step time_flow (log_prob, latent_pair) ;;
  out <- tf_slice latent_pair' [0; 0; 0] single_time_latent_size ;;
  pre_latent' <- tf_slice latent_pair' [0; 0; dim] single_time_latent_size ;;
  Ok (log_prob', final_samples ++ [out], pre_latent').

Definition sample_log_prob (self : t) (n_samples : nat)
  : result (tensor T * tensor T) :=
  if n_example self =? 1 then
    samples <- dist_sample (base_dist self) [n_samples] ;;
    lp <- dist_log_prob (base_dist self) samples ;;
    log_prob <- tf_reduce_sum lp 1 false ;;
    let single_time_latent_size := [Z.of_nat n_samples; Z.of_nat (dim self)] in
    pre_latent <- tf_slice samples [0; 0] single_time_latent_size ;;
    ' (log_prob', final_samples, pre_latent') <-
      for_each (time_step_single (dim self) samples single_time_latent_size)
               (enumerate (flows self)) (log_prob, [], pre_latent) ;;
    final <- tf_concat (final_samples ++ [pre_latent']) 1 ;;
    Ok (final, log_prob')
  else
    samples <- dist_sample (base_dist self) [n_example self; n_samples] ;;
    lp <- dist_log_prob (base_dist self) samples ;;
    log_prob <- tf_reduce_sum lp 2 false ;;
    let single_time_latent_size :=
      [Z.of_nat (n_example self); Z.of_nat n_samples; Z.of_nat (dim self)] in
    pre_latent <- tf_slice samples [0; 0; 0] single_time_latent_size ;;
    ' (log_prob', final_samples, pre_latent') <-
      for_each (time_step_batched (dim self) samples single_time_latent_size)
               (enumerate (flows self)) (log_prob, [], pre_latent) ;;
    final <- tf_concat (final_samples ++ [pre_latent']) 2 ;;
    Ok (final, log_prob').

End WithScalar.
Arguments t T : clear implicits.
End DynaFlowConditionalRandomVariable.

(** ** Specification vocabulary

    The formulas and relations the theorems below compare the code with. *)

Section Specification.
Context {T : Type} {ST : Scalar T}.

(** A flow whose parameters have the documented shapes: [w] and [u] are
    [(N, dim)], [b] is [(N)], with [N = n_flows]. *)
Definition wf_flow (F : PlanarFlow.t T) (n d : nat) : Prop :=
  shape (PlanarFlow.w F) = [n; d] /\ shape (PlanarFlow.u F) = [n; d] /\
  shape (PlanarFlow.b F) = [n] /\
  shape (PlanarFlow.u_bar F) = [n; d] /\ PlanarFlow.n_flows F = n.

(** [dot(a, b)] of two vectors of length [d]. *)
Definition dot (d : nat) (a b : nat -> T) : T :=
  tsum d (fun l => s_mul (a l) (b l)).

(** Component [k] of [x + u_bar * tanh(x.w + b)] for one input vector [xv]
    and one parameter row [(wv, bv, ubv)]. *)
Definition planar_map (d : nat) (wv : nat -> T) (bv : T) (ubv xv : nat -> T)
    (k : nat) : T :=
  s_add (xv k) (s_mul (ubv k) (s_tanh (s_add (dot d xv wv) bv))).

(** [-log|1 + dot(u_bar, w) * (1 - tanh(x.w + b)^2)|] for one input vector
    and one parameter row. *)
Definition planar_log_det (d : nat) (wv : nat -> T) (bv : T) (ubv xv : nat -> T) : T :=
  s_neg (s_log (s_abs
    (s_add (s_of_Z 1)
       (s_mul (dot d ubv wv)
              (s_sub (s_of_Z 1) (s_pow (s_tanh (s_add (dot d xv wv) bv)) 2)))))).

(** Row [i] of a rank-2 tensor, and row [j] of slice [i] of a rank-3 one. *)
Definition row2 (x : tensor T) (i : nat) : nat -> T := fun l => get x [i; l].
Definition row3 (x : tensor T) (i j : nat) : nat -> T := fun l => get x [i; j; l].

(** The position in [tf.squeeze(x)] of the element at [idx] in [x]. *)
Fixpoint squeeze_index (sh idx : list nat) : list nat :=
  match sh, idx with
  | d :: sh', i :: idx' =>
      if d =? 1 then squeeze_index sh' idx' else i :: squeeze_index sh' idx'
  | _, _ => []
  end.

(** [tf.constant] of a Python list, and of a list of rows. *)
Definition tf_constant1 (l : list T) : tensor T :=
  {| shape := [length l]; get := fun idx => nth (hd 0 idx) l (s_of_Z 0) |}.

Definition tf_constant2 (rows : list (list T)) : tensor T :=
  {| shape := [length rows; length (hd [] rows)];
     get := fun idx => nth (nth 1 idx 0) (nth (hd 0 idx) rows []) (s_of_Z 0) |}.

(** The recurrence of a stack of flow layers: starting from samples [s] and
    log-density [p], each layer adds its log-det-Jacobian at its own input
    to the log-density, then transforms the samples. *)
Inductive accumulates :
  list (PlanarFlow.t T) -> tensor T * tensor T -> tensor T * tensor T -> Prop :=
| acc_done s p : accumulates [] (s, p) (s, p)
| acc_layer f fs s0 p0 l p1 s1 sk pk :
    PlanarFlow.log_det_jacobian f s0 = Ok l ->
    tf_add p0 l = Ok p1 ->
    PlanarFlow.transform f s0 = Ok s1 ->
    accumulates fs (s1, p1) (sk, pk) ->
    accumulates (f :: fs) (s0, p0) (sk, pk).

(** The three concatenations of [get_all_flow_params] over a list of flows. *)
Definition concat_params (fs : list (PlanarFlow.t T))
  : result (tensor T * tensor T * tensor T) :=
  all_w <- tf_concat (map PlanarFlow.w fs) 1 ;;
  all_u <- tf_concat (map PlanarFlow.u fs) 1 ;;
  all_b <- tf_concat (map PlanarFlow.b fs) 0 ;;
  Ok (all_w, all_u, all_b).

(** The body of [for flow in self.flows] of [FlowRandomVariable.sample_log_prob]. *)
Definition flow_body : tensor T * tensor T -> PlanarFlow.t T -> result (tensor T * tensor T) :=
  fun '(samples, log_prob) flow =>
    l <- PlanarFlow.log_det_jacobian flow samples ;;
    log_prob <- tf_add log_prob l ;;
    samples <- PlanarFlow.transform flow samples ;;
    Ok (samples, log_prob).

(** What [set_up_flows] hands to layer [i]: the [i]-th column chunks. *)
Definition is_chunk (all_w all_u all_b : tensor T) (N dim_x i : nat)
    (F : PlanarFlow.t T) : Prop :=
  PlanarFlow.n_flows F = N /\
  shape (PlanarFlow.w F) = [N; dim_x] /\
  shape (PlanarFlow.u F) = [N; dim_x] /\
  shape (PlanarFlow.b F) = squeeze_shape [N; 1] /\
  (forall r c, r < N -> c < dim_x ->
     get (PlanarFlow.w F) [r; c] = get all_w [r; i * dim_x + c] /\
     get (PlanarFlow.u F) [r; c] = get all_u [r; i * dim_x + c]) /\
  (forall r, r < N ->
     get (PlanarFlow.b F) (squeeze_index [N; 1] [r; 0]) = get all_b [r; i]).

(** The chain of [DynaFlowRandomVariable.sample_log_prob] from time step
    [t] on: [pre] is the carried first half, [lp] the log-density so far,
    [outs] the transformed first halves in time order, [last] the carried
    half that is left after the last pair.  The second half [pre1] cut from
    the transformed pair of step [t] is the [pre] of step [t + 1]. *)
Inductive chain (dim : nat) (size : list Z) (samples : tensor T) :
  nat -> list (list (PlanarFlow.t T)) -> tensor T -> tensor T ->
  list (tensor T) -> tensor T -> tensor T -> Prop :=
| chain_last t pre lp : chain dim size samples t [] pre lp [] pre lp
| chain_pair t stack stacks pre lp cur pair pair' lp1 out pre1 outs last lp' :
    tf_slice samples [0; (t + 1) * dim] size = Ok cur ->
    tf_concat [pre; cur] 1 = Ok pair ->
    accumulates stack (pair, lp) (pair', lp1) ->
    tf_slice pair' [0; 0] size = Ok out ->
    tf_slice pair' [0; dim] size = Ok pre1 ->
    chain dim size samples (S t) stacks pre1 lp1 outs last lp' ->
    chain dim size samples t (stack :: stacks) pre lp (out :: outs) last lp'.

(** The chain algorithm written once for any list [lead] of leading
    (per-example) axes: slices start at the origin of the leading axes and
    keep them whole, and the feature axis is the one after the sample
    axis. *)
Definition chain_time_step (lead : list nat) (dim : nat) (samples : tensor T)
    (size : list Z) (st : tensor T * list (tensor T) * tensor T)
    (it : nat * list (PlanarFlow.t T))
  : result (tensor T * list (tensor T) * tensor T) :=
  let '(log_prob, final_samples, pre_latent) := st in
  let (i, time_flow) := it in
  let origin := repeat 0 (length lead) in
  cur_latent <- tf_slice samples (origin ++ [0; (i + 1) * dim]) size ;;
  latent_pair <- tf_concat [pre_latent; cur_latent] (length lead + 1) ;;
  ' (latent_pair', log_prob') <- for_each flow_body time_flow (latent_pair, log_prob) ;;
  out <- tf_slice latent_pair' (origin ++ [0; 0]) size ;;
  pre_latent' <- tf_slice latent_pair' (origin ++ [0; dim]) size ;;
  Ok (log_prob', final_samples ++ [out], pre_latent').

Definition chain_sample_log_prob (lead : list nat) (base_dist : base_distribution T)
    (flows : list (list (PlanarFlow.t T))) (dim n_samples : nat)
  : result (tensor T * tensor T) :=
  samples <- dist_sample base_dist (lead ++ [n_samples]) ;;
  lp <- dist_log_prob base_dist samples ;;
  log_prob <- tf_reduce_sum lp (length lead + 1) false ;;
  let size := map Z.of_nat (lead ++ [n_samples; dim]) in
  pre_latent <- tf_slice samples (repeat 0 (length lead) ++ [0; 0]) size ;;
  ' (log_prob', final_samples, pre_latent') <-
    for_each (chain_time_step lead dim samples size) (enumerate flows)
             (log_prob, [], pre_latent) ;;
  final <- tf_concat (final_samples ++ [pre_latent']) (length lead + 1) ;;
  Ok (final, log_prob').

End Specification.
Arguments dot : simpl never.

(** ** Concrete objects

    Real-valued parameters, inputs and stand-ins for the library objects,
    at which the theorems below are instantiated. *)

Section Examples.
Open Scope R_scope.

Definition ex_rng : rng R := fun k => INR k.

Definition ex_w : tensor R := tf_constant2 [[1; 0]].
Definition ex_u : tensor R := tf_constant2 [[0; 1]].
Definition ex_b : tensor R := tf_constant1 [0].
Definition ex_zero_w : tensor R := tf_constant2 [[0; 0]].

(** One flow of dimension 2, and two flows of dimension 2 side by side. *)
Definition ex_flow : PlanarFlow.t R :=
  PlanarFlow.mk (PlanarFlow.IntDim 2) ex_w ex_b ex_u ex_u 1.

Definition ex_flow2 : PlanarFlow.t R :=
  PlanarFlow.mk (PlanarFlow.IntDim 2)
    (tf_constant2 [[1; 0]; [0; 1]]) (tf_constant1 [0; 1])
    (tf_constant2 [[0; 1]; [1; 0]]) (tf_constant2 [[0; 1]; [1; 0]]) 2.

(** A batch of one vector, a batch of three, and two batches of three. *)
Definition ex_x1 : tensor R := tf_constant2 [[1; 2]].
Definition ex_x3 : tensor R := tf_constant2 [[1; 2]; [3; 4]; [5; 6]].
Definition ex_x23 : tensor R :=
  {| shape := [2; 3; 2]%nat; get := fun idx => INR (flat_index [2; 3; 2]%nat idx) |}.

(** A standard normal over [dim] coordinates: [sample(sh)] has shape
    [sh ++ [dim]], [log_prob] is element-wise. *)
Definition ex_sample (dim : nat) (sh : list nat) : tensor R :=
  {| shape := sh ++ [dim]; get := fun idx => ex_rng (flat_index (sh ++ [dim]) idx) |}.

Definition ex_log_prob (x : tensor R) : tensor R :=
  tf_map (fun v => - (v * v) / 2 - ln (sqrt (2 * PI))) x.

Definition ex_normal (dim : nat) : base_distribution R :=
  Distribution (ex_sample dim) ex_log_prob.

(** A stand-in for the MLP: one output row per input row, as many columns
    as the last layer. *)
Definition ex_mlp (x : tensor R) (layers : list nat) (act : option (R -> R))
    (g : rng R) : tensor R * rng R :=
  np_random_normal [hd 0%nat (shape x); last layers 0%nat] g.

Definition ex_y : tensor R :=
  {| shape := [2; 3]%nat; get := fun idx => INR (flat_index [2; 3]%nat idx) |}.

(** A chain over two time steps of dimension 1 with one layer. *)
Definition ex_dyna : DynaFlowRandomVariable.t R :=
  DynaFlowRandomVariable.mk 2 1 2 1 (ex_normal 2) [[ex_flow]].

(** A vector where a matrix is expected, and an input of width 3. *)
Definition ex_vec : tensor R := tf_constant1 [1; 2; 3].
Definition ex_x_wide : tensor R := tf_constant2 [[1; 2; 3]].

(** Variables over [ex_flow] and [ex_flow2]. *)
Definition ex_lp3 : tensor R := tf_constant1 [0; 0; 0].

Definition ex_var_pre : FlowRandomVariable.t R :=
  FlowRandomVariable.mk 2 1 (Precomputed ex_x3 ex_lp3) [ex_flow] (Some 1%nat).

Definition ex_var_multi : FlowRandomVariable.t R :=
  FlowRandomVariable.mk 2 1 (ex_normal 2) [ex_flow2] (Some 1%nat).

Definition ex_var_two : FlowRandomVariable.t R :=
  FlowRandomVariable.mk 2 2 (ex_normal 2) [ex_flow; ex_flow] None.

(** A chain of one time step. *)
Definition ex_dyna_single : DynaFlowRandomVariable.t R :=
  DynaFlowRandomVariable.mk 2 2 1 1 (ex_normal 2) [].

End Examples.

(** ** IEEE double arithmetic

    The arithmetic TensorFlow computes in for [float64] tensors.  The four
    operations, negation and absolute value are the primitive binary64
    operations; [softplus], [tanh] and [log] come from the numerical
    library and are left as parameters. *)







(** * Facts about the tensor operations *)

Section TensorFacts.
Context {T : Type} {ST : Scalar T}.

Lemma bdim_same x : bdim x x = Ok x.
Proof. unfold bdim. now rewrite Nat.eqb_refl. Qed.

Lemma bdim_1_l y : bdim 1 y = Ok y.
Proof. unfold bdim. destruct (Nat.eqb_spec 1 y); subst; reflexivity. Qed.

Lemma bdim_1_r x : bdim x 1 = Ok x.
Proof. unfold bdim. destruct (Nat.eqb_spec x 1); subst; reflexivity. Qed.

Lemma bi_lt d i : i < d -> bi d i = i.
Proof. unfold bi. destruct (Nat.eqb_spec d 1); lia. Qed.

Lemma tsum_ext n (f g : nat -> T) :
  (forall k, k < n -> f k = g k) -> tsum n f = tsum n g.
Proof.
  intros H. unfold tsum.
  assert (Hin : forall k, In k (seq 0 n) -> f k = g k)
    by (intros k Hk; apply H; apply in_seq in Hk; lia).
  clear H. revert Hin. generalize (s_of_Z 0). generalize (seq 0 n) as l.
  induction l as [|a l IH]; intros acc Hin; simpl; [reflexivity|].
  rewrite (Hin a) by now left. apply IH. intros; apply Hin; now right.
Qed.

End TensorFacts.

(** Destructs a flow and an input into their fields and substitutes the
    shapes a [wf_flow] hypothesis fixes. *)
Ltac open_flow F x :=
  let dm := fresh "dm" in
  destruct F as [dm [? ?] [? ?] [? ?] [? ?] ?];
  destruct x as [? ?]; unfold wf_flow in *; simpl in *;
  repeat match goal with H : _ /\ _ |- _ => destruct H end; subst.

(** Runs the shape checks of broadcasting operations on symbolic shapes. *)
Ltac bcast :=
  unfold tf_matmul, tf_expand_dims, tf_reduce_sum, tf_add, tf_subtract, tf_multiply,
    tf_divide, tf_binop, broadcast_shape; simpl;
  repeat (rewrite ?Nat.eqb_refl, ?bdim_same, ?bdim_1_l, ?bdim_1_r; simpl).

(** Resolves broadcast indices that are within range. *)
Ltac bidx :=
  unfold broadcast_index; simpl;
  repeat match goal with
         | |- context [bi ?d ?i] => rewrite (bi_lt d i) by assumption
         | |- context [tsum ?d ?f] =>
             match f with
             | context [bi d _] =>
                 erewrite (tsum_ext d f)
                   by (intros; rewrite !bi_lt by assumption; reflexivity)
             end
         end.
Section SliceFacts.
Context {T : Type} {ST : Scalar T}.

Lemma slice_dim_all d b : b <= d -> slice_dim d b (-1) = Ok (d - b).
Proof.
  intros H. unfold slice_dim. simpl.
  destruct (Nat.leb_spec b d); [reflexivity | lia].
Qed.

Lemma slice_dim_nat d b s : b + s <= d -> slice_dim d b (Z.of_nat s) = Ok s.
Proof.
  intros H. unfold slice_dim.
  destruct (Z.eqb_spec (Z.of_nat s) (-1)); [lia|].
  destruct (Z.leb_spec 0 (Z.of_nat s)); [|lia].
  rewrite Nat2Z.id. simpl.
  destruct (Nat.leb_spec (b + s) d); [reflexivity | lia].
Qed.

Lemma slice_dim_one d b : b + 1 <= d -> slice_dim d b 1 = Ok 1.
Proof. intros H. apply (slice_dim_nat d b 1 H). Qed.

(** A column block of a rank-2 tensor. *)
Lemma tf_slice_columns (x : tensor T) n m c k :
  shape x = [n; m] -> c + k <= m ->
  exists r, tf_slice x [0; c] [(-1)%Z; Z.of_nat k] = Ok r /\ shape r = [n; k] /\
    forall i j, get r [i; j] = get x [i; c + j].
Proof.
  intros Hx Hc. unfold tf_slice. rewrite Hx. simpl.
  rewrite ?slice_dim_all by lia. simpl. rewrite ?slice_dim_nat by lia. simpl.
  eexists; split; [reflexivity|]. simpl. rewrite Nat.sub_0_r. split; [reflexivity|].
  intros i j. reflexivity.
Qed.

Lemma tf_slice_block (x : tensor T) n m c k :
  shape x = [n; m] -> c + k <= m ->
  exists r, tf_slice x [0; c] [Z.of_nat n; Z.of_nat k] = Ok r /\ shape r = [n; k] /\
    forall i j, get r [i; j] = get x [i; c + j].
Proof.
  intros Hx Hc. unfold tf_slice. rewrite Hx. simpl.
  rewrite !slice_dim_nat by lia. simpl.
  eexists; split; [reflexivity|]. split; [reflexivity|].
  intros i j. reflexivity.
Qed.

Lemma tf_slice_column (x : tensor T) n m c :
  shape x = [n; m] -> c < m ->
  exists r, tf_slice x [0; c] [(-1)%Z; 1%Z] = Ok r /\ shape r = [n; 1] /\
    forall i j, get r [i; j] = get x [i; c + j].
Proof.
  intros Hx Hc. apply (tf_slice_columns x n m c 1 Hx). lia.
Qed.

Lemma for_each_app {A S} (body : S -> A -> result S) xs ys acc :
  for_each body (xs ++ ys) acc = (acc' <- for_each body xs acc ;; for_each body ys acc').
Proof.
  revert acc. induction xs as [|x xs IH]; intros acc; simpl; [reflexivity|].
  destruct (body acc x); simpl; [apply IH | reflexivity].
Qed.

Lemma unsqueeze_squeeze sh idx :
  Forall2 lt idx sh -> unsqueeze_index sh (squeeze_index sh idx) = idx.
Proof.
  intros H. induction H as [|i d idx sh Hlt H IH]; simpl; [reflexivity|].
  destruct (Nat.eqb_spec d 1).
  - subst. assert (i = 0) by lia. subst. now rewrite IH.
  - simpl. now rewrite IH.
Qed.

End SliceFacts.
Section PlanarFacts.
Context {T : Type} {ST : Scalar T}.
Import PlanarFlow.

Lemma transform_multi F n B d x :
  wf_flow F n d -> n <> 1 -> shape x = [n; B; d] ->
  exists r, transform F x = Ok r /\ shape r = [n; B; d] /\
   forall i j k, i < n -> j < B -> k < d ->
     get r [i; j; k] = planar_map d (row2 (w F) i) (get (b F) [i])
        (row2 (u_bar F) i) (row3 x i j) k.
Proof.
  intros Hwf Hn1 Hx. open_flow F x.
  assert (Hb : (n =? 1) = false) by now apply Nat.eqb_neq.
  unfold transform, is_single_flow; simpl. rewrite Hb.
  bcast.
  eexists; split; [reflexivity|]. split; [reflexivity|].
  intros i j k Hi Hj Hk. simpl. bidx. reflexivity.
Qed.

Lemma transform_single F B d x :
  wf_flow F 1 d -> shape x = [B; d] ->
  exists r, transform F x = Ok r /\ shape r = [B; d] /\
   forall j k, j < B -> k < d ->
     get r [j; k] = planar_map d (row2 (w F) 0) (get (b F) [0])
        (row2 (u_bar F) 0) (row2 x j) k.
Proof.
  intros Hwf Hx. open_flow F x.
  unfold transform, is_single_flow; simpl.
  bcast.
  eexists; split; [reflexivity|]. split; [reflexivity|].
  intros j k Hj Hk. simpl. bidx. reflexivity.
Qed.

(** The dilation [x.w + b] of a single flow, whatever is computed from it. *)
Lemma dilation_single {A} F B d x (K : tensor T -> result A) :
  wf_flow F 1 d -> shape x = [B; d] ->
  exists dl, shape dl = [B; 1] /\
    (forall j, j < B ->
       get dl [j; 0] = s_add (dot d (row2 x j) (row2 (w F) 0)) (get (b F) [0])) /\
    (xw <- tf_matmul x (w F) true ;; dialation <- tf_add xw (b F) ;; K dialation) = K dl.
Proof.
  intros Hwf Hx. open_flow F x. bcast.
  refine (ex_intro _ _ (conj _ (conj _ eq_refl))); [reflexivity|].
  intros j Hj. simpl. bidx. reflexivity.
Qed.

(** The dilation of [n] flows side by side. *)
Lemma dilation_multi {A} F n B d x (K : tensor T -> result A) :
  wf_flow F n d -> shape x = [n; B; d] ->
  exists dl, shape dl = [n; B; 1] /\
    (forall i j, i < n -> j < B ->
       get dl [i; j; 0] = s_add (dot d (row3 x i j) (row2 (w F) i)) (get (b F) [i])) /\
    (w2 <- tf_expand_dims (w F) 2 ;;
     xw <- tf_matmul x w2 false ;;
     b1 <- tf_expand_dims (b F) 1 ;;
     b2 <- tf_expand_dims b1 2 ;;
     dialation <- tf_add xw b2 ;; K dialation) = K dl.
Proof.
  intros Hwf Hx. open_flow F x. bcast.
  refine (ex_intro _ _ (conj _ (conj _ eq_refl))); [reflexivity|].
  intros i j Hi Hj. simpl. bidx. reflexivity.
Qed.

Lemma ldj_single F B d x :
  wf_flow F 1 d -> shape x = [B; d] ->
  exists r, log_det_jacobian F x = Ok r /\ shape r = squeeze_shape [B] /\
   forall j, j < B ->
     get r (squeeze_index [B; 1] [j; 0]) = planar_log_det d (row2 (w F) 0) (get (b F) [0])
        (row2 (u_bar F) 0) (row2 x j).
Proof.
  intros Hwf Hx. unfold log_det_jacobian.
  replace (is_single_flow F) with true
    by (unfold is_single_flow; destruct Hwf as (_ & _ & _ & _ & ->); reflexivity).
  match goal with
  | |- context [bind (tf_matmul x (w F) true) (fun xw => bind (tf_add xw (b F)) ?K)] =>
      destruct (dilation_single F B d x K Hwf Hx) as (dl & Sdl & Gdl & E)
  end.
  rewrite E. clear E. cbv beta.
  destruct dl as [shd gd]. simpl in Sdl, Gdl. subst shd.
  unfold planar_log_det. revert Gdl. generalize (row2 x). intros xr Gdl. clear Hx.
  open_flow F x. bcast.
  eexists; split; [reflexivity|]. split; [reflexivity|].
  intros j Hj. simpl.
  destruct (Nat.eqb_spec B 1); simpl.
  - subst. assert (j = 0) by lia. subst. rewrite <- (Gdl 0 Hj). reflexivity.
  - rewrite <- (Gdl j Hj). bidx. reflexivity.
Qed.

Lemma ldj_multi F n B d x :
  wf_flow F n d -> n <> 1 -> shape x = [n; B; d] ->
  exists r, log_det_jacobian F x = Ok r /\ shape r = squeeze_shape [n; B] /\
   forall i j, i < n -> j < B ->
     get r (squeeze_index [n; B; 1] [i; j; 0]) = planar_log_det d (row2 (w F) i) (get (b F) [i])
        (row2 (u_bar F) i) (row3 x i j).
Proof.
  intros Hwf Hn1 Hx. unfold log_det_jacobian.
  assert (Hb : (n =? 1) = false) by now apply Nat.eqb_neq.
  replace (is_single_flow F) with false
    by (unfold is_single_flow; destruct Hwf as (_ & _ & _ & _ & ->); now rewrite Hb).
  match goal with
  | |- context [bind (tf_add _ _) ?K] =>
      destruct (dilation_multi F n B d x K Hwf Hx) as (dl & Sdl & Gdl & E)
  end.
  rewrite E. clear E. cbv beta.
  destruct dl as [shd gd]. simpl in Sdl, Gdl. subst shd.
  unfold planar_log_det. revert Gdl. generalize (row3 x). intros xr Gdl. clear Hx.
  open_flow F x. bcast.
  eexists; split; [reflexivity|]. split; [simpl; rewrite Hb; reflexivity|].
  intros i j Hi Hj. simpl. rewrite Hb.
  destruct (Nat.eqb_spec B 1); simpl.
  - subst. assert (j = 0) by lia. subst. rewrite <- (Gdl i 0 Hi Hj). bidx. reflexivity.
  - rewrite <- (Gdl i j Hi Hj). bidx. reflexivity.
Qed.

End PlanarFacts.
Section InitFacts.
Context {T : Type} {ST : Scalar T}.
Import PlanarFlow.

(** The factor [-1 + softplus(dot(u, w)) - dot(u, w)] of each row,
    whatever is computed from it. *)
Lemma correction_factor {A} (w u : tensor T) n d (K : tensor T -> result A) :
  shape w = [n; d] -> shape u = [n; d] ->
  exists sc, shape sc = [n; 1] /\
    (forall i, i < n ->
       get sc [i; 0] =
         s_sub (s_add (s_of_Z (-1)) (s_softplus (dot d (row2 u i) (row2 w i))))
               (dot d (row2 u i) (row2 w i))) /\
    (uw <- tf_multiply u w ;;
     dot <- tf_reduce_sum uw 1 true ;;
     m1 <- tf_add (tf_constant (s_of_Z (-1))) (tf_softplus dot) ;;
     scalar <- tf_subtract m1 dot ;; K scalar) = K sc.
Proof.
  intros Hw Hu. destruct w as [shw gw], u as [shu gu]; simpl in *; subst.
  bcast.
  refine (ex_intro _ _ (conj _ (conj _ eq_refl))); [reflexivity|].
  intros i Hi. simpl. bidx. reflexivity.
Qed.

(** Row [i] of the correction: [-1 + softplus(dot) - dot]. *)
Lemma reversible_constraint_rows (w u : tensor T) n d :
  shape w = [n; d] -> shape u = [n; d] ->
  exists ub, reversible_constraint w u = Ok ub /\ shape ub = [n; d] /\
    forall i k, i < n -> k < d ->
      get ub [i; k] =
        s_add (get u [i; k])
          (s_div (s_mul (s_sub (s_add (s_of_Z (-1)) (s_softplus (dot d (row2 u i) (row2 w i))))
                               (dot d (row2 u i) (row2 w i)))
                        (get w [i; k]))
                 (dot d (row2 w i) (row2 w i))).
Proof.
  intros Hw Hu. unfold reversible_constraint.
  match goal with
  | |- context [bind (tf_subtract _ _) ?K] =>
      destruct (correction_factor w u n d K Hw Hu) as (sc & Ssc & Gsc & E)
  end.
  rewrite E. clear E. cbv beta.
  destruct sc as [shs gs]. simpl in Ssc, Gsc. subst shs.
  destruct w as [shw gw], u as [shu gu]; simpl in *; subst.
  bcast.
  eexists; split; [reflexivity|]. split; [reflexivity|].
  intros i k Hi Hk. simpl. rewrite <- (Gsc i Hi). bidx. reflexivity.
Qed.

Lemma init_given dm (w b u : tensor T) g n d :
  shape w = [n; d] -> shape u = [n; d] ->
  exists F, init dm (Some w) (Some b) (Some u) g = Ok (F, g) /\
    dim F = dm /\ PlanarFlow.w F = w /\ PlanarFlow.b F = b /\ PlanarFlow.u F = u /\
    reversible_constraint w u = Ok (u_bar F) /\ shape (u_bar F) = [n; d] /\
    n_flows F = n.
Proof.
  intros Hw Hu.
  destruct (reversible_constraint_rows w u n d Hw Hu) as (ub & Hrc & Hsh & _).
  unfold init. simpl. rewrite Hrc. simpl. rewrite Hu. simpl.
  eexists; split; [reflexivity|]. simpl. repeat split; assumption.
Qed.

Lemma init_random d g :
  exists F g', init (IntDim d) None None None g = Ok (F, g') /\ wf_flow F 1 d.
Proof.
  unfold init, create_flow_variables. simpl.
  match goal with |- context [reversible_constraint ?w ?u] =>
    destruct (reversible_constraint_rows w u 1 d eq_refl eq_refl) as (ub & Hrc & Hsh & _)
  end.
  rewrite Hrc. simpl.
  eexists; eexists; split; [reflexivity|].
  unfold wf_flow; simpl. repeat split; assumption.
Qed.

End InitFacts.
Section RealFacts.
Open Scope R_scope.

Lemma fold_add_shift (f : nat -> R) l acc :
  fold_left (fun a k => a + f k) l acc = acc + fold_left (fun a k => a + f k) l 0.
Proof.
  revert acc. induction l as [|x l IH]; intros acc; simpl; [lra|].
  rewrite (IH (acc + f x)), (IH (0 + f x)). lra.
Qed.







End RealFacts.
Section FlowRVFacts.
Context {T : Type} {ST : Scalar T}.
Import FlowRandomVariable.

Lemma for_each_accumulates fs : forall s0 p0 sk pk,
  for_each flow_body fs (s0, p0) = Ok (sk, pk) <-> accumulates fs (s0, p0) (sk, pk).
Proof.
  induction fs as [|f fs IH]; intros s0 p0 sk pk; simpl.
  - split; intros H.
    + inversion H; subst. constructor.
    + inversion H; subst. reflexivity.
  - split; intros H.
    + destruct (PlanarFlow.log_det_jacobian f s0) as [l|] eqn:El; simpl in H; [|discriminate].
      destruct (tf_add p0 l) as [p1|] eqn:Ep; simpl in H; [|discriminate].
      destruct (PlanarFlow.transform f s0) as [s1|] eqn:Es; simpl in H; [|discriminate].
      apply IH in H. econstructor; eassumption.
    + inversion H; subst.
      match goal with
      | H1 : PlanarFlow.log_det_jacobian _ _ = _, H2 : tf_add _ _ = _,
        H3 : PlanarFlow.transform _ _ = _ |- _ => rewrite H1; simpl; rewrite H2; simpl; rewrite H3; simpl
      end.
      apply IH. assumption.
Qed.

Lemma sample_log_prob_accumulates (self : FlowRandomVariable.t T) n sk pk :
  sample_log_prob self n = Ok (sk, pk) <->
  exists s0 p0, base_sample_log_prob self n = Ok (s0, p0) /\
                accumulates (flows self) (s0, p0) (sk, pk).
Proof.
  unfold sample_log_prob. split.
  - intros H. destruct (base_sample_log_prob self n) as [[s0 p0]|] eqn:Eb; simpl in H; [|discriminate].
    exists s0, p0. split; [reflexivity|]. now apply for_each_accumulates.
  - intros (s0 & p0 & Hb & Hacc). rewrite Hb. simpl. now apply for_each_accumulates.
Qed.

Lemma map_result_index {A B} (f : A -> B) (l : list A) n :
  map_result (fun i => x <- py_index l i ;; Ok (f x)) (seq 0 n) =
  if n <=? length l then Ok (map f (firstn n l)) else Err IndexError.
Proof.
  assert (G : forall k m, k + m <= length l ->
     map_result (fun i => x <- py_index l i ;; Ok (f x)) (seq k m) =
     Ok (map f (firstn m (skipn k l)))).
  { intros k m. revert k. induction m as [|m IH]; intros k Hk; simpl; [reflexivity|].
    unfold py_index at 1.
    destruct (nth_error l k) as [x|] eqn:Ex.
    2:{ apply nth_error_None in Ex. lia. }
    simpl. rewrite IH by lia. simpl.
    assert (skipn k l = x :: skipn (S k) l) as ->.
    { clear -Ex. revert k Ex. induction l as [|a l IHl]; intros [|k] Ex; simpl in *; try discriminate.
      - now inversion Ex.
      - now apply IHl. }
    reflexivity. }
  assert (B' : forall k m, k <= length l -> length l < k + m ->
     map_result (fun i => x <- py_index l i ;; Ok (f x)) (seq k m) = Err IndexError).
  { intros k m. revert k. induction m as [|m IH]; intros k Hk1 Hk2; simpl; [lia|].
    unfold py_index at 1.
    destruct (nth_error l k) as [x|] eqn:Ex; simpl.
    - assert (k < length l) by (apply nth_error_Some; congruence).
      rewrite IH by lia. reflexivity.
    - reflexivity. }
  destruct (Nat.leb_spec n (length l)).
  - rewrite (G 0 n) by lia. reflexivity.
  - apply B'; lia.
Qed.

End FlowRVFacts.
Section ConditionalFacts.
Context {T : Type} {ST : Scalar T}.
Variable Normal : nat -> base_distribution T.
Variable MLP : tensor T -> list nat -> option (T -> T) -> rng T -> tensor T * rng T.
Import FlowConditionalVariable.

Lemma slice_flow_chunk all_w all_u all_b N dim_x L fs g i :
  shape all_w = [N; dim_x * L] -> shape all_u = [N; dim_x * L] ->
  shape all_b = [N; L] -> i < L ->
  exists F, slice_flow all_w all_u all_b dim_x (fs, g) i = Ok (fs ++ [F], g) /\
            is_chunk all_w all_u all_b N dim_x i F.
Proof.
  intros Hw Hu Hb Hi. unfold slice_flow.
  assert (Hle : i * dim_x + dim_x <= dim_x * L) by nia.
  destruct (tf_slice_columns all_w N _ (i * dim_x) dim_x Hw Hle) as (w & Ew & Sw & Gw).
  destruct (tf_slice_columns all_u N _ (i * dim_x) dim_x Hu Hle) as (u & Eu & Su & Gu).
  destruct (tf_slice_column all_b N L i Hb Hi) as (b1 & Eb & Sb & Gb).
  rewrite Ew, Eu, Eb. simpl.
  destruct (init_given (PlanarFlow.TensorDim (tf_squeeze b1)) w (tf_squeeze b1) u g N dim_x Sw Su)
    as (F & EF & _ & HFw & HFb & HFu & _ & _ & HFn).
  rewrite EF. simpl. exists F. split; [reflexivity|].
  unfold is_chunk. rewrite HFw, HFb, HFu, HFn. repeat split; try assumption.
  - simpl. now rewrite Sb.
  - now rewrite Gw.
  - now rewrite Gu.
  - intros r Hr. unfold tf_squeeze. cbn [get]. rewrite Sb.
    rewrite (unsqueeze_squeeze [N; 1] [r; 0]) by (repeat constructor; lia).
    rewrite Gb. now rewrite Nat.add_0_r.
Qed.

Lemma slice_loop all_w all_u all_b N dim_x L g :
  shape all_w = [N; dim_x * L] -> shape all_u = [N; dim_x * L] ->
  shape all_b = [N; L] ->
  forall k, k <= L ->
  exists fs, for_each (slice_flow all_w all_u all_b dim_x) (seq 0 k) ([], g) = Ok (fs, g) /\
    length fs = k /\
    forall i F, nth_error fs i = Some F -> is_chunk all_w all_u all_b N dim_x i F.
Proof.
  intros Hw Hu Hb. induction k as [|k IH]; intros Hk.
  - exists []. simpl. split; [reflexivity|]. split; [reflexivity|].
    intros [|i] F0 Hn; discriminate.
  - destruct IH as (fs & Efs & Lfs & Pfs); [lia|].
    rewrite seq_S, for_each_app, Efs. cbn [bind for_each Nat.add].
    destruct (slice_flow_chunk all_w all_u all_b N dim_x L fs g k Hw Hu Hb) as (Fk & EF & PF); [lia|].
    rewrite EF. cbn [bind]. exists (fs ++ [Fk]). split; [reflexivity|]. split.
    + rewrite length_app. simpl. lia.
    + intros i F' Hn. destruct (Nat.lt_ge_cases i (length fs)) as [Hlt|Hge].
      * rewrite nth_error_app1 in Hn by assumption. now apply Pfs.
      * rewrite nth_error_app2 in Hn by assumption.
        destruct (i - length fs) as [|j] eqn:Ej; simpl in Hn.
        -- inversion Hn; subst F'. assert (i = k) by lia. now subst i.
        -- destruct j; discriminate.
Qed.

(** C6.  For a covariate [y] of shape [[N; dim_y]] and an MLP whose output
    has one row per input row and as many columns as its last layer, the
    constructor builds [flow_layers] flows; flow [i] has [n_flows = N], its
    [w] and [u] are columns [i * dim_x .. (i + 1) * dim_x - 1] of the flat
    [w] and [u] outputs, and its [b] is column [i] of the flat bias
    output. *)
Theorem init_chunks y N dy dim_x L hidden bd g :
  shape y = [N; dy] ->
  (forall x layers act g', shape (fst (MLP x layers act g')) = [hd 0 (shape x); last layers 0]) ->
  exists self g',
    init Normal MLP dim_x y L hidden bd g = Ok (self, g') /\
    n_points self = N /\ dim_y self = dy /\
    w self = fst (MLP y (hidden ++ [dim_x * L]) (Some s_tanh) g) /\
    shape (w self) = [N; dim_x * L] /\ shape (u self) = [N; dim_x * L] /\
    shape (b self) = [N; L] /\
    length (FlowRandomVariable.flows (variable self)) = L /\
    forall i F, nth_error (FlowRandomVariable.flows (variable self)) i = Some F ->
      is_chunk (w self) (u self) (b self) N dim_x i F.
Proof.
  intros Hy HM. unfold init, set_up_flows. rewrite Hy. cbn [py_index nth_error bind].
  pose proof (HM y (hidden ++ [dim_x * L]) (Some s_tanh) g) as Hw.
  destruct (MLP y (hidden ++ [dim_x * L]) (Some s_tanh) g) as [all_w g1].
  pose proof (HM y (hidden ++ [dim_x * L]) (Some s_tanh) g1) as Hu.
  destruct (MLP y (hidden ++ [dim_x * L]) (Some s_tanh) g1) as [all_u g2].
  pose proof (HM y (hidden ++ [L]) (Some s_tanh) g2) as Hb.
  destruct (MLP y (hidden ++ [L]) (Some s_tanh) g2) as [all_b g3].
  rewrite Hy, last_last in Hw, Hu, Hb. cbn [fst hd] in Hw, Hu, Hb.
  destruct (slice_loop all_w all_u all_b N dim_x L g3 Hw Hu Hb L (le_n L))
    as (fs & Efs & Lfs & Pfs).
  rewrite Efs. cbn [bind FlowRandomVariable.init].
  eexists; eexists; split; [reflexivity|].
  cbn [n_points dim_y w u b variable FlowRandomVariable.flows fst].
  do 7 (split; [assumption || reflexivity|]). exact Pfs.
Qed.

End ConditionalFacts.
Section ChainFacts.
Context {T : Type} {ST : Scalar T}.

Lemma for_each_ext {A S} (f g : S -> A -> result S) xs acc :
  (forall s a, f s a = g s a) -> for_each f xs acc = for_each g xs acc.
Proof.
  intros H. revert acc. induction xs as [|x xs IH]; intros acc; simpl; [reflexivity|].
  rewrite H. destruct (g acc x); simpl; [apply IH | reflexivity].
Qed.

(** The layer loops of the Dyna classes carry [(log_prob, latent_pair)],
    the loop of [FlowRandomVariable] carries [(samples, log_prob)]. *)
Lemma layer_loop_flow_body stack : forall (lp pair : tensor T),
  for_each DynaFlowRandomVariable.layer_step stack (lp, pair) =
  (' (pair', lp') <- for_each flow_body stack (pair, lp) ;; Ok (lp', pair')).
Proof.
  induction stack as [|F stack IH]; intros lp pair; simpl; [reflexivity|].
  destruct (PlanarFlow.log_det_jacobian F pair) as [l|]; simpl; [|reflexivity].
  destruct (tf_add lp l) as [lp1|]; simpl; [|reflexivity].
  destruct (PlanarFlow.transform F pair) as [pair1|]; simpl; [|reflexivity].
  apply IH.
Qed.

Lemma tf_add_squeezed (lp l : tensor T) n :
  shape lp = [n] -> shape l = squeeze_shape [n] ->
  exists r, tf_add lp l = Ok r /\ shape r = [n].
Proof.
  intros Hlp Hl. unfold tf_add, tf_binop, broadcast_shape. rewrite Hlp, Hl.
  simpl. destruct (n =? 1); simpl.
  - eexists; split; reflexivity.
  - rewrite bdim_same. simpl. eexists; split; reflexivity.
Qed.

(** A stack of single flows keeps the shapes of the pair and of the
    log-density, and never raises. *)
Lemma layer_loop_shapes n d stack : forall (lp pair : tensor T),
  Forall (fun F => wf_flow F 1 d) stack ->
  shape pair = [n; d] -> shape lp = [n] ->
  exists lp' pair',
    for_each flow_body stack (pair, lp) = Ok (pair', lp') /\
    shape pair' = [n; d] /\ shape lp' = [n].
Proof.
  induction stack as [|F stack IH]; intros lp pair Hwf Hp Hlp.
  - exists lp, pair. repeat split; assumption.
  - inversion Hwf as [|? ? HF Hrest]; subst.
    destruct (ldj_single F n d pair HF Hp) as (l & El & Sl & _).
    destruct (tf_add_squeezed lp l n Hlp Sl) as (lp1 & Elp & Slp).
    destruct (transform_single F n d pair HF Hp) as (pair1 & Ep & Sp & _).
    destruct (IH lp1 pair1 Hrest Sp Slp) as (lp' & pair' & E & S1 & S2).
    exists lp', pair'. split; [|split; assumption].
    cbn [for_each flow_body]. rewrite El. cbn [bind]. rewrite Elp. cbn [bind].
    rewrite Ep. cbn [bind]. exact E.
Qed.

Lemma tf_concat_pair (a c : tensor T) n k :
  shape a = [n; k] -> shape c = [n; k] ->
  exists r, tf_concat [a; c] 1 = Ok r /\ shape r = [n; 2 * k] /\
    forall i j, j < k -> get r [i; j] = get a [i; j] /\ get r [i; k + j] = get c [i; j].
Proof.
  intros Ha Hc. unfold tf_concat. cbn [forallb map list_sum]. rewrite Ha, Hc. simpl.
  rewrite !Nat.eqb_refl. simpl.
  eexists; split; [reflexivity|]. split; [reflexivity|].
  intros i j Hj. cbn [get concat_get nth]. rewrite Ha, Hc. cbn [nth].
  destruct (Nat.ltb_spec j k); [|lia].
  destruct (Nat.ltb_spec (k + j) k); [lia|].
  unfold replace_at. simpl.
  replace (k + j - k) with j by lia.
  destruct (Nat.ltb_spec j k); [|lia]. split; reflexivity.
Qed.

Lemma concat_get_chunks n d (ts : list (tensor T)) :
  Forall (fun t => shape t = [n; d]) ts ->
  forall k tk, nth_error ts k = Some tk ->
  forall r j, j < d -> concat_get 1 ts [r; k * d + j] = get tk [r; j].
Proof.
  induction 1 as [|t ts Ht Hts IH]; intros k tk Hk r j Hj.
  - destruct k; discriminate.
  - destruct k as [|k]; simpl in Hk.
    + inversion Hk; subst tk. simpl. rewrite Ht. simpl.
      destruct (Nat.ltb_spec j d); [reflexivity | lia].
    + cbn [concat_get nth]. rewrite Ht. cbn [nth].
      destruct (Nat.ltb_spec (S k * d + j) d) as [Hlt|Hge]; [simpl in Hlt; lia|].
      unfold replace_at. cbn [firstn skipn app].
      replace (S k * d + j - d) with (k * d + j) by (simpl; lia).
      now apply IH.
Qed.

Lemma tf_concat_chunks n d (ts : list (tensor T)) :
  ts <> [] -> Forall (fun t => shape t = [n; d]) ts ->
  exists r, tf_concat ts 1 = Ok r /\ shape r = [n; d * length ts] /\
    forall k tk, nth_error ts k = Some tk ->
    forall i j, j < d -> get r [i; k * d + j] = get tk [i; j].
Proof.
  intros Hne Hall.
  assert (Hsum : list_sum (map (fun t => nth 1 (shape t) 0) ts) = d * length ts).
  { clear -Hall. induction Hall as [|t ts Ht _ IH]; simpl; [lia|].
    rewrite IH, Ht. simpl. lia. }
  destruct ts as [|t0 ts0]; [congruence|].
  assert (Ht0 : shape t0 = [n; d]) by now inversion Hall.
  assert (Hchk : forallb (fun t => (length (shape t) =? length (shape t0))
                                   && shape_eqb (replace_at 0 1 (shape t))
                                                (replace_at 0 1 (shape t0))) (t0 :: ts0) = true).
  { apply forallb_forall. intros t Hin. rewrite Forall_forall in Hall.
    rewrite (Hall t Hin), Ht0. simpl. now rewrite Nat.eqb_refl. }
  unfold tf_concat. rewrite Hchk, Hsum, Ht0.
  eexists; split; [reflexivity|]. cbn [shape get]. split; [reflexivity|].
  intros k tk Hk i j Hj. now apply (concat_get_chunks n d (t0 :: ts0) Hall).
Qed.

End ChainFacts.
Section PlanarClaims.
Context {T : Type} {ST : Scalar T}.
Import PlanarFlow.

(** C4.  For a flow with parameters of the documented shapes and an input
    of the documented shape ([[B; dim]] for a single flow, [[n_flows; B; dim]]
    otherwise), [transform] returns a tensor of the input's shape whose
    vector at batch position [j] of flow [i] is
    [x + u_bar_i * tanh(dot(x, w_i) + b_i)]: flow [i] reads only row [i] of
    [w], [b], [u_bar] and only slice [i] of the input. *)
Theorem transform_planar_map (F : PlanarFlow.t T) (n d B : nat) (x : tensor T) :
  wf_flow F n d ->
  shape x = (if n =? 1 then [B; d] else [n; B; d]) ->
  exists r, transform F x = Ok r /\ shape r = shape x /\
    forall i j k, i < n -> j < B -> k < d ->
      get r (if n =? 1 then [j; k] else [i; j; k]) =
      planar_map d (row2 (w F) i) (get (b F) [i]) (row2 (u_bar F) i)
        (fun l => get x (if n =? 1 then [j; l] else [i; j; l])) k.
Proof.
  intros Hwf Hx. destruct (Nat.eqb_spec n 1) as [->|Hn].
  - destruct (transform_single F B d x Hwf Hx) as (r & Er & Sr & Gr).
    exists r. split; [exact Er|]. split; [congruence|].
    intros i j k Hi Hj Hk. assert (i = 0) by lia. subst i. now apply Gr.
  - destruct (transform_multi F n B d x Hwf Hn Hx) as (r & Er & Sr & Gr).
    exists r. split; [exact Er|]. split; [congruence|].
    intros i j k Hi Hj Hk. now apply Gr.
Qed.

(** C1.  Under the same shape conditions, [log_det_jacobian] returns a
    tensor whose entry for batch position [j] of flow [i] is
    [-log|1 + dot(u_bar_i, w_i) * (1 - tanh(dot(x, w_i) + b_i)^2)|], the dot
    products being taken with row [i] of the parameters only.  The entry
    sits at the position [tf.squeeze] leaves it at. *)
Theorem log_det_jacobian_planar (F : PlanarFlow.t T) (n d B : nat) (x : tensor T) :
  wf_flow F n d ->
  shape x = (if n =? 1 then [B; d] else [n; B; d]) ->
  exists r, log_det_jacobian F x = Ok r /\
    forall i j, i < n -> j < B ->
      get r (squeeze_index (if n =? 1 then [B; 1] else [n; B; 1])
                           (if n =? 1 then [j; 0] else [i; j; 0])) =
      planar_log_det d (row2 (w F) i) (get (b F) [i]) (row2 (u_bar F) i)
        (fun l => get x (if n =? 1 then [j; l] else [i; j; l])).
Proof.
  intros Hwf Hx. destruct (Nat.eqb_spec n 1) as [->|Hn].
  - destruct (ldj_single F B d x Hwf Hx) as (r & Er & Sr & Gr).
    exists r. split; [exact Er|].
    intros i j Hi Hj. assert (i = 0) by lia. subst i. now apply Gr.
  - destruct (ldj_multi F n B d x Hwf Hn Hx) as (r & Er & Sr & Gr).
    exists r. split; [exact Er|].
    intros i j Hi Hj. now apply Gr.
Qed.

(** C7.  The shape [log_det_jacobian] returns is the batch shape of the
    input with every axis of size 1 removed as well as the feature axis:
    [tf.squeeze] is called without an axis.  For a batch of one vector a
    single flow returns a scalar (shape [[]]) where the batch shape is
    [[1]]. *)
Theorem log_det_jacobian_shape (F : PlanarFlow.t T) (n d B : nat) (x : tensor T) :
  wf_flow F n d ->
  shape x = (if n =? 1 then [B; d] else [n; B; d]) ->
  exists r, log_det_jacobian F x = Ok r /\
    shape r = (if n =? 1
               then (if B =? 1 then [] else [B])
               else (if B =? 1 then [n] else [n; B])).
Proof.
  intros Hwf Hx. destruct (Nat.eqb_spec n 1) as [->|Hn].
  - destruct (ldj_single F B d x Hwf Hx) as (r & Er & Sr & _).
    exists r. split; [exact Er|]. rewrite Sr. simpl.
    destruct (B =? 1); reflexivity.
  - destruct (ldj_multi F n B d x Hwf Hn Hx) as (r & Er & Sr & _).
    exists r. split; [exact Er|]. rewrite Sr. simpl.
    apply Nat.eqb_neq in Hn. rewrite Hn. simpl.
    destruct (B =? 1); reflexivity.
Qed.

End PlanarClaims.
Section ConstructorClaims.
Context {T : Type} {ST : Scalar T}.
Import PlanarFlow.


(** C8 as the code behaves.  [PlanarFlow(dim, w, b, u)] checks nothing
    about the norm of [w]: for parameters of the documented shapes the
    constructor always returns an object, whose [u_bar] is the quotient by
    [dot(w, w)] whatever that is. *)
Theorem init_never_rejects dm (w b u : tensor T) g n d :
  shape w = [n; d] -> shape u = [n; d] ->
  exists F, init dm (Some w) (Some b) (Some u) g = Ok (F, g) /\
    PlanarFlow.w F = w /\ PlanarFlow.u F = u /\ n_flows F = n /\
    forall i k, i < n -> k < d ->
      get (u_bar F) [i; k] =
        s_add (get u [i; k])
          (s_div (s_mul (s_sub (s_add (s_of_Z (-1)) (s_softplus (dot d (row2 u i) (row2 w i))))
                               (dot d (row2 u i) (row2 w i)))
                        (get w [i; k]))
                 (dot d (row2 w i) (row2 w i))).
Proof.
  intros Hw Hu.
  destruct (init_given dm w b u g n d Hw Hu) as (F & EF & _ & HFw & _ & HFu & Hrc & _ & HFn).
  destruct (reversible_constraint_rows w u n d Hw Hu) as (ub & Hrc' & _ & Gub).
  exists F. split; [exact EF|]. split; [exact HFw|]. split; [exact HFu|].
  split; [exact HFn|]. rewrite Hrc in Hrc'. inversion Hrc'; subst ub. exact Gub.
Qed.

End ConstructorClaims.

Section RealClaims.
Import PlanarFlow.
Open Scope R_scope.


End RealClaims.
Section Binary64Facts.
Import PlanarFlow.


(** The double nearest to [exp(-120)], the value of [softplus] at [-120],
    is absorbed when added to [-1]: the condition above is the one an IEEE
    [softplus] meets. *)
Lemma softplus_at_minus_120_absorbed :
  PrimFloat.add (-1)%float 0x1.d606847fc727ap-174%float = (-1)%float.
Proof. reflexivity. Qed.

End Binary64Facts.
Section FlowRVClaims.
Context {T : Type} {ST : Scalar T}.
Variable Normal : nat -> base_distribution T.
Import FlowRandomVariable.

(** C2.  [sample_log_prob] returns [(s_k, p_k)] exactly when the layers
    [f_1 .. f_k], taken in list order from the base samples [s_0] and base
    log-density [p_0], give [p_i = p_(i-1) + f_i.log_det_jacobian(s_(i-1))]
    and then [s_i = f_i.transform(s_(i-1))]: each log-det-Jacobian is taken
    at the layer's input. *)
Theorem sample_log_prob_recurrence (self : FlowRandomVariable.t T) (n : nat)
    (sk pk : tensor T) :
  sample_log_prob self n = Ok (sk, pk) <->
  exists s0 p0, base_sample_log_prob self n = Ok (s0, p0) /\
                accumulates (flows self) (s0, p0) (sk, pk).
Proof. apply sample_log_prob_accumulates. Qed.

(** C10.  With a [flows] list supplied, the constructor stores its
    [num_layers] argument unchanged and writes the list's length to the
    attribute [num_layrs]; [get_all_flow_params] then concatenates the
    parameters of the first [num_layers] flows only (and raises
    [IndexError] when the list is shorter), while [sample_log_prob] runs
    through every flow of the list. *)
Theorem init_keeps_num_layers (dim nl : nat) (fs : list (PlanarFlow.t T))
    (bd : option (base_distribution T)) (g : rng T) :
  exists self,
    init Normal dim nl (Some fs) bd g = Ok (self, g) /\
    num_layers self = nl /\ num_layrs self = Some (length fs) /\ flows self = fs /\
    get_all_flow_params self =
      (if nl <=? length fs then concat_params (firstn nl fs) else Err IndexError) /\
    forall n, sample_log_prob self n =
              (st <- base_sample_log_prob self n ;; for_each flow_body fs st).
Proof.
  eexists. split; [reflexivity|]. cbn [num_layers num_layrs flows].
  repeat split.
  unfold get_all_flow_params, concat_params. cbn [num_layers flows].
  rewrite !map_result_index.
  destruct (nl <=? length fs); reflexivity.
Qed.

End FlowRVClaims.
Section DynaClaims.
Context {T : Type} {ST : Scalar T}.
Import DynaFlowRandomVariable.

Lemma flow_body_accumulates stack (s0 p0 sk pk : tensor T) :
  for_each flow_body stack (s0, p0) = Ok (sk, pk) -> accumulates stack (s0, p0) (sk, pk).
Proof. apply for_each_accumulates. Qed.

(** The outer loop from time step [t] on, for stacks of single flows of
    dimension [2 * dim] and samples wide enough for the remaining steps. *)
Lemma time_loop n dim W (samples : tensor T) stacks :
  shape samples = [n; W] ->
  forall t acc pre lp,
  Forall (Forall (fun F => wf_flow F 1 (2 * dim))) stacks ->
  (t + 1 + length stacks) * dim <= W ->
  shape pre = [n; dim] -> shape lp = [n] ->
  exists outs last lp',
    for_each (time_step dim samples [Z.of_nat n; Z.of_nat dim])
             (combine (seq t (length stacks)) stacks) (lp, acc, pre)
      = Ok (lp', acc ++ outs, last) /\
    chain dim [Z.of_nat n; Z.of_nat dim] samples t stacks pre lp outs last lp' /\
    length outs = length stacks /\
    Forall (fun o => shape o = [n; dim]) outs /\
    shape last = [n; dim] /\ shape lp' = [n].
Proof.
  intros Hs. induction stacks as [|stack stacks IH]; intros t acc pre lp Hwf HW Hpre Hlp.
  - exists [], pre, lp. simpl. rewrite app_nil_r.
    repeat split; try assumption; constructor.
  - inversion Hwf as [|? ? Hstack Hrest]; subst. simpl in HW.
    destruct (tf_slice_block samples n W ((t + 1) * dim) dim Hs) as (cur & Ecur & Scur & _); [nia|].
    destruct (tf_concat_pair pre cur n dim Hpre Scur) as (pair & Epair & Spair & _).
    destruct (layer_loop_shapes n (2 * dim) stack lp pair Hstack Spair Hlp)
      as (lp1 & pair' & Eloop & Spair' & Slp1).
    destruct (tf_slice_block pair' n (2 * dim) 0 dim Spair') as (out & Eout & Sout & _); [lia|].
    destruct (tf_slice_block pair' n (2 * dim) dim dim Spair') as (pre1 & Epre1 & Spre1 & _); [lia|].
    destruct (IH (S t) (acc ++ [out]) pre1 lp1 Hrest) as (outs & last & lp' & E & Hch & Hlen & Hsh & Hlast & Hlp');
      [nia | assumption | assumption |].
    exists (out :: outs), last, lp'. split; [|split; [|split; [|split; [|split]]]].
    + cbn [length seq combine for_each]. unfold time_step at 1.
      rewrite Ecur. cbn [bind]. rewrite Epair. cbn [bind].
      rewrite layer_loop_flow_body, Eloop. cbn [bind].
      rewrite Eout. cbn [bind]. rewrite Epre1. cbn [bind].
      rewrite E. now rewrite <- app_assoc.
    + econstructor; try eassumption. now apply flow_body_accumulates.
    + simpl. now rewrite Hlen.
    + constructor; assumption.
    + assumption.
    + assumption.
Qed.

(** C5.  For [time >= 1] time steps, [time - 1] stacks of single flows of
    dimension [2 * dim], and a base distribution whose samples and
    log-densities have shape [[n; dim * time]], [sample_log_prob] returns;
    its run is the chain in which the second half cut from the transformed
    pair of step [t] is the carried input of step [t + 1] and the last
    carried half is appended as it is; the result has width [dim * time],
    and its [k]-th block of [dim] columns is the [k]-th tensor of that
    sequence. *)
Theorem sample_log_prob_chain (self : DynaFlowRandomVariable.t T) (n time : nat)
    (sample : list nat -> tensor T) (log_prob : tensor T -> tensor T) :
  1 <= time ->
  length (flows self) = time - 1 ->
  Forall (Forall (fun F => wf_flow F 1 (2 * dim self))) (flows self) ->
  base_dist self = Distribution sample log_prob ->
  shape (sample [n]) = [n; dim self * time] ->
  shape (log_prob (sample [n])) = [n; dim self * time] ->
  exists final lp0 pre0 outs last lp',
    sample_log_prob self n = Ok (final, lp') /\
    tf_reduce_sum (log_prob (sample [n])) 1 false = Ok lp0 /\
    tf_slice (sample [n]) [0; 0] [Z.of_nat n; Z.of_nat (dim self)] = Ok pre0 /\
    chain (dim self) [Z.of_nat n; Z.of_nat (dim self)] (sample [n]) 0 (flows self) pre0 lp0 outs last lp' /\
    length outs = time - 1 /\
    shape final = [n; dim self * time] /\
    forall k tk, nth_error (outs ++ [last]) k = Some tk ->
      forall r j, j < dim self ->
        get final [r; k * dim self + j] = get tk [r; j].
Proof.
  intros Ht Hlen Hwf Hbd Hs Hlp.
  set (samples := sample [n]) in *.
  assert (Elp0 : exists lp0, tf_reduce_sum (log_prob samples) 1 false = Ok lp0 /\ shape lp0 = [n]).
  { unfold tf_reduce_sum. rewrite Hlp. simpl. eexists; split; reflexivity. }
  destruct Elp0 as (lp0 & Elp0 & Slp0).
  destruct (tf_slice_block samples n (dim self * time) 0 (dim self) Hs) as (pre0 & Epre0 & Spre0 & _); [nia|].
  destruct (time_loop n (dim self) (dim self * time) samples (flows self) Hs 0 [] pre0 lp0 Hwf)
    as (outs & last & lp' & Eloop & Hch & Hlo & Hsh & Hlast & _); [rewrite Hlen; nia | assumption | assumption |].
  assert (Hall : Forall (fun o => shape o = [n; dim self]) (outs ++ [last])).
  { apply Forall_app. split; [assumption | repeat constructor; assumption]. }
  destruct (tf_concat_chunks n (dim self) (outs ++ [last])) as (final & Efinal & Sfinal & Gfinal);
    [now destruct outs | assumption |].
  exists final, lp0, pre0, outs, last, lp'.
  split; [|split; [exact Elp0|split; [exact Epre0|split; [exact Hch|split; [congruence|split]]]]].
  - unfold sample_log_prob. rewrite Hbd. cbn [dist_sample dist_log_prob bind].
    fold samples. rewrite Elp0. cbn [bind]. cbv zeta. rewrite Epre0. cbn [bind].
    unfold enumerate. rewrite Eloop. cbn [bind app]. rewrite Efinal. reflexivity.
  - rewrite Sfinal, length_app, Hlo, Hlen. simpl. f_equal. f_equal. nia.
  - exact Gfinal.
Qed.

End DynaClaims.
Section RegimeClaims.
Context {T : Type} {ST : Scalar T}.

Lemma time_step_chain dim (samples : tensor T) size st it :
  DynaFlowRandomVariable.time_step dim samples size st it =
  chain_time_step [] dim samples size st it.
Proof.
  destruct st as [[lp acc] pre], it as [i stack].
  unfold DynaFlowRandomVariable.time_step, chain_time_step. cbn [length repeat app Nat.add].
  destruct (tf_slice samples [0; (i + 1) * dim] size) as [cur|]; cbn [bind]; [|reflexivity].
  destruct (tf_concat [pre; cur] 1) as [pair|]; cbn [bind]; [|reflexivity].
  rewrite layer_loop_flow_body.
  destruct (for_each flow_body stack (pair, lp)) as [[pair' lp']|]; reflexivity.
Qed.

Lemma time_step_single_chain dim (samples : tensor T) size st it :
  DynaFlowConditionalRandomVariable.time_step_single dim samples size st it =
  chain_time_step [] dim samples size st it.
Proof. rewrite <- time_step_chain. reflexivity. Qed.

Lemma time_step_batched_chain E dim (samples : tensor T) size st it :
  DynaFlowConditionalRandomVariable.time_step_batched dim samples size st it =
  chain_time_step [E] dim samples size st it.
Proof.
  destruct st as [[lp acc] pre], it as [i stack].
  unfold DynaFlowConditionalRandomVariable.time_step_batched, chain_time_step.
  cbn [length repeat app Nat.add].
  destruct (tf_slice samples [0; 0; (i + 1) * dim] size) as [cur|]; cbn [bind]; [|reflexivity].
  destruct (tf_concat [pre; cur] 2) as [pair|]; cbn [bind]; [|reflexivity].
  change (for_each DynaFlowConditionalRandomVariable.layer_step stack (lp, pair))
    with (for_each DynaFlowRandomVariable.layer_step stack (lp, pair)).
  rewrite layer_loop_flow_body.
  destruct (for_each flow_body stack (pair, lp)) as [[pair' lp']|]; reflexivity.
Qed.

(** C9.  [DynaFlowRandomVariable.sample_log_prob] is the chain algorithm
    with no leading axis; [DynaFlowConditionalRandomVariable.sample_log_prob]
    is the same algorithm with no leading axis when [n_example == 1] and
    with the one leading axis of size [n_example] otherwise.  The regimes
    differ in nothing but that axis. *)
Theorem sample_log_prob_regimes (v : DynaFlowRandomVariable.t T)
    (c : DynaFlowConditionalRandomVariable.t T) (n : nat) :
  DynaFlowRandomVariable.sample_log_prob v n =
    chain_sample_log_prob [] (DynaFlowRandomVariable.base_dist v)
      (DynaFlowRandomVariable.flows v) (DynaFlowRandomVariable.dim v) n /\
  DynaFlowConditionalRandomVariable.sample_log_prob c n =
    chain_sample_log_prob
      (if DynaFlowConditionalRandomVariable.n_example c =? 1 then []
       else [DynaFlowConditionalRandomVariable.n_example c])
      (DynaFlowConditionalRandomVariable.base_dist c)
      (DynaFlowConditionalRandomVariable.flows c)
      (DynaFlowConditionalRandomVariable.dim c) n.
Proof.
  split.
  - unfold DynaFlowRandomVariable.sample_log_prob, chain_sample_log_prob.
    cbn [length repeat app Nat.add map].
    destruct (dist_sample _ _) as [samples|]; cbn [bind]; [|reflexivity].
    destruct (dist_log_prob _ _) as [lp|]; cbn [bind]; [|reflexivity].
    destruct (tf_reduce_sum lp 1 false) as [lp0|]; cbn [bind]; [|reflexivity].
    destruct (tf_slice samples [0; 0] _) as [pre|]; cbn [bind]; [|reflexivity].
    rewrite (for_each_ext _ _ _ _ (time_step_chain _ samples _)). reflexivity.
  - unfold DynaFlowConditionalRandomVariable.sample_log_prob, chain_sample_log_prob.
    destruct (DynaFlowConditionalRandomVariable.n_example c =? 1);
      cbn [length repeat app Nat.add map].
    + destruct (dist_sample _ _) as [samples|]; cbn [bind]; [|reflexivity].
      destruct (dist_log_prob _ _) as [lp|]; cbn [bind]; [|reflexivity].
      destruct (tf_reduce_sum lp 1 false) as [lp0|]; cbn [bind]; [|reflexivity].
      destruct (tf_slice samples [0; 0] _) as [pre|]; cbn [bind]; [|reflexivity].
      rewrite (for_each_ext _ _ _ _ (time_step_single_chain _ samples _)). reflexivity.
    + destruct (dist_sample _ _) as [samples|]; cbn [bind]; [|reflexivity].
      destruct (dist_log_prob _ _) as [lp|]; cbn [bind]; [|reflexivity].
      destruct (tf_reduce_sum lp 2 false) as [lp0|]; cbn [bind]; [|reflexivity].
      destruct (tf_slice samples [0; 0; 0] _) as [pre|]; cbn [bind]; [|reflexivity].
      rewrite (for_each_ext _ _ _ _
                 (time_step_batched_chain (DynaFlowConditionalRandomVariable.n_example c) _ samples _)).
      reflexivity.
Qed.

End RegimeClaims.
Section Witnesses.
Import PlanarFlow.
Open Scope R_scope.

Lemma ex_flow_wf : wf_flow ex_flow 1 2.
Proof. repeat split. Defined.

Lemma ex_flow2_wf : wf_flow ex_flow2 2 2.
Proof. repeat split. Defined.

Lemma transform_planar_map_witness :
  exists r, transform ex_flow2 ex_x23 = Ok r /\ shape r = [2; 3; 2]%nat.
Proof.
  destruct (transform_planar_map ex_flow2 2 2 3 ex_x23 ex_flow2_wf eq_refl)
    as (r & Er & Sr & _).
  exists r. split; [exact Er | exact Sr].
Defined.

Lemma log_det_jacobian_planar_witness :
  exists r, log_det_jacobian ex_flow ex_x3 = Ok r /\
    get r [0%nat] =
      planar_log_det 2 (row2 ex_w 0) (get ex_b [0%nat]) (row2 ex_u 0) (row2 ex_x3 0).
Proof.
  destruct (log_det_jacobian_planar ex_flow 1 2 3 ex_x3 ex_flow_wf eq_refl)
    as (r & Er & Gr).
  exists r. split; [exact Er|]. apply (Gr 0%nat 0%nat); lia.
Defined.

Lemma log_det_jacobian_shape_witness :
  exists r, log_det_jacobian ex_flow ex_x1 = Ok r /\ shape r = [].
Proof.
  exact (log_det_jacobian_shape ex_flow 1 2 1 ex_x1 ex_flow_wf eq_refl).
Defined.

Lemma init_never_rejects_witness :
  exists F, init (IntDim 2) (Some ex_w) (Some ex_b) (Some ex_u) ex_rng = Ok (F, ex_rng) /\
    n_flows F = 1%nat.
Proof.
  destruct (init_never_rejects (IntDim 2) ex_w ex_b ex_u ex_rng 1 2 eq_refl eq_refl)
    as (F & EF & _ & _ & Hn & _).
  exists F. split; [exact EF | exact Hn].
Defined.

(** A [w] of norm zero is accepted like any other. *)
Lemma init_accepts_zero_norm :
  exists F, init (IntDim 2) (Some ex_zero_w) (Some ex_b) (Some ex_u) ex_rng = Ok (F, ex_rng) /\
    dot 2 (row2 ex_zero_w 0) (row2 ex_zero_w 0) = 0.
Proof.
  destruct (init_given (IntDim 2) ex_zero_w ex_b ex_u ex_rng 1 2 eq_refl eq_refl)
    as (F & EF & _).
  exists F. split; [exact EF|].
  unfold dot, tsum, row2. simpl. lra.
Qed.


Lemma init_chunks_witness :
  exists self g',
    FlowConditionalVariable.init ex_normal ex_mlp 2 ex_y 2 [4%nat] None ex_rng = Ok (self, g') /\
    FlowConditionalVariable.n_points self = 2%nat /\
    length (FlowRandomVariable.flows (FlowConditionalVariable.variable self)) = 2%nat.
Proof.
  destruct (init_chunks ex_normal ex_mlp ex_y 2 3 2 2 [4%nat] None ex_rng eq_refl)
    as (self & g' & E & Hn & _ & _ & _ & _ & _ & Hl & _).
  - intros x layers act g'. reflexivity.
  - exists self, g'. split; [exact E|]. split; [exact Hn | exact Hl].
Defined.

Lemma sample_log_prob_chain_witness :
  exists final lp, DynaFlowRandomVariable.sample_log_prob ex_dyna 3 = Ok (final, lp) /\
    shape final = [3; 2]%nat.
Proof.
  destruct (sample_log_prob_chain ex_dyna 3 2 (ex_sample 2) ex_log_prob)
    as (final & lp0 & pre0 & outs & last & lp' & E & _ & _ & _ & _ & S & _).
  - lia.
  - reflexivity.
  - repeat constructor.
  - reflexivity.
  - reflexivity.
  - reflexivity.
  - exists final, lp'. split; [exact E | exact S].
Defined.

End Witnesses.
Section PlanarEdges.
Context {T : Type} {ST : Scalar T}.
Import PlanarFlow.

(** X1.  Unless all of [w], [b] and [u] are supplied, the constructor ignores
    the ones that are and draws all three: the new flow is a single flow of
    dimension [d] whose [w] is the first [d] draws of the stream, [b] the
    next one and [u] the [d] after that, and [2 * d + 1] draws are
    consumed. *)
Theorem init_draws_parameters (d : nat) (ow ob ou : option (tensor T)) (g : rng T) :
  ow = None \/ ob = None \/ ou = None ->
  exists F g',
    init (IntDim d) ow ob ou g = Ok (F, g') /\
    wf_flow F 1 d /\
    (forall j, j < d -> get (w F) [0; j] = g j) /\
    get (b F) [0] = g d /\
    (forall j, j < d -> get (u F) [0; j] = g (d + 1 + j)) /\
    (forall k, g' k = g (2 * d + 1 + k)).
Proof.
  intros Hnone.
  assert (E : init (IntDim d) ow ob ou g = init (IntDim d) None None None g).
  { unfold init. destruct Hnone as [->|[->| ->]]; [reflexivity| |].
    - destruct ow; reflexivity.
    - destruct ow, ob; reflexivity. }
  rewrite E. clear E Hnone. unfold init, create_flow_variables. simpl.
  match goal with |- context [reversible_constraint ?w ?u] =>
    destruct (reversible_constraint_rows w u 1 d eq_refl eq_refl) as (ub & Hrc & Hsh & _)
  end.
  rewrite Hrc. simpl.
  eexists; eexists; split; [reflexivity|]. simpl.
  split; [repeat split; assumption|].
  split; [intros j Hj; reflexivity|].
  unfold flat_index. simpl.
  split; [f_equal; lia|].
  split; [intros j Hj; f_equal; lia|].
  intros k. f_equal. lia.
Qed.

(** X2.  Parameters whose widths differ, or that are vectors rather than
    [(N, dim)] matrices, are rejected by the reversibility correction: the
    constructor raises [ValueError]. *)
Theorem init_rejects_shapes dm (w b u : tensor T) (g : rng T) (n d d' : nat) :
  (shape w = [n; d] /\ shape u = [n; d'] /\ d <> d' /\ d <> 1 /\ d' <> 1) \/
  (shape w = [d] /\ shape u = [d]) ->
  init dm (Some w) (Some b) (Some u) g = Err ValueError.
Proof.
  intros [(Hw & Hu & Hd & Hd1 & Hd1')|(Hw & Hu)];
    unfold init, reversible_constraint, tf_multiply, tf_binop, broadcast_shape;
    cbn [bind]; rewrite Hw, Hu; simpl.
  - unfold bdim.
    destruct (Nat.eqb_spec d' d); [congruence|].
    destruct (Nat.eqb_spec d' 1); [congruence|].
    destruct (Nat.eqb_spec d 1); [congruence|]. reflexivity.
  - rewrite bdim_same. reflexivity.
Qed.

(** X3.  An input whose feature width is not the flow's dimension is rejected
    by both operations with [ValueError]. *)
Theorem transform_rejects_width (F : PlanarFlow.t T) (n d d' B : nat) (x : tensor T) :
  wf_flow F n d ->
  shape x = (if n =? 1 then [B; d'] else [n; B; d']) ->
  d' <> d ->
  transform F x = Err ValueError /\ log_det_jacobian F x = Err ValueError.
Proof.
  intros Hwf Hx Hd. apply Nat.eqb_neq in Hd.
  destruct (n =? 1) eqn:Hn.
  - apply Nat.eqb_eq in Hn. subst n. open_flow F x.
    unfold transform, log_det_jacobian, is_single_flow, tf_matmul; simpl.
    rewrite Hd. split; reflexivity.
  - open_flow F x.
    unfold transform, log_det_jacobian, is_single_flow; simpl. rewrite Hn.
    unfold tf_expand_dims, tf_matmul; simpl.
    rewrite Nat.eqb_refl, Hd. split; reflexivity.
Qed.

End PlanarEdges.
Section FlowRVEdges.
Context {T : Type} {ST : Scalar T}.
Variable Normal : nat -> base_distribution T.
Import FlowRandomVariable.

Lemma create_layers_wf d k : forall (g : rng T),
  exists fs g', PlanarFlow.create_layers (PlanarFlow.IntDim d) k g = Ok (fs, g') /\
    length fs = k /\ Forall (fun F => wf_flow F 1 d) fs.
Proof.
  induction k as [|k IH]; intros g.
  - exists [], g. repeat split. constructor.
  - destruct (init_random d g) as (F & g1 & EF & HF).
    destruct (IH g1) as (fs & g2 & Efs & Lfs & Hfs).
    exists (F :: fs), g2. cbn [PlanarFlow.create_layers]. rewrite EF. cbn [bind].
    rewrite Efs. cbn [bind]. split; [reflexivity|]. split; [simpl; lia|].
    constructor; assumption.
Qed.

(** X4.  A variable built with [num_layers = 0] has no flow: with a
    distribution as base [sample_log_prob] raises [IndexError] (it asks
    the first flow whether it is single), and [get_all_flow_params] raises
    [ValueError] (nothing to concatenate); with a precomputed
    [(samples, log_prob)] pair as base the pair comes back unchanged. *)
Theorem no_layers (dim : nat) (bd : option (base_distribution T)) (g : rng T) :
  exists self,
    init Normal dim 0 None bd g = Ok (self, g) /\ flows self = [] /\
    get_all_flow_params self = Err ValueError /\
    forall n,
      sample_log_prob self n =
        match base_dist self with
        | Distribution _ _ => Err IndexError
        | Precomputed samples log_prob => Ok (samples, log_prob)
        end.
Proof.
  eexists. split; [reflexivity|]. split; [reflexivity|]. split; [reflexivity|].
  intros n. unfold sample_log_prob, base_sample_log_prob. cbn [base_dist flows].
  destruct (match bd with None => Normal dim | Some bd0 => bd0 end); reflexivity.
Qed.

(** X5.  The samples [sample_log_prob] returns are the base samples pushed
    through [transform]. *)
Theorem sample_log_prob_transform (self : FlowRandomVariable.t T) (n : nat)
    (s0 p0 sk pk : tensor T) :
  base_sample_log_prob self n = Ok (s0, p0) ->
  sample_log_prob self n = Ok (sk, pk) ->
  transform self s0 = Ok sk.
Proof.
  intros Hb Hs. unfold sample_log_prob in Hs. rewrite Hb in Hs. cbn [bind] in Hs.
  unfold transform. clear Hb. revert s0 p0 Hs.
  induction (flows self) as [|F fs IH]; intros s0 p0 Hs; simpl in *.
  - now inversion Hs.
  - destruct (PlanarFlow.log_det_jacobian F s0) as [l|]; simpl in Hs; [|discriminate].
    destruct (tf_add p0 l) as [p1|]; simpl in Hs; [|discriminate].
    destruct (PlanarFlow.transform F s0) as [s1|]; simpl in *; [|discriminate].
    now apply (IH s1 p1).
Qed.

(** X6.  A variable the constructor builds with [num_layers >= 1] fresh flows
    can always be sampled when the base distribution gives samples of
    shape [[n; dim]] and element-wise log-densities: the samples keep the
    shape [[n; dim]] and the log-density has shape [[n]]. *)
Theorem constructed_sample_log_prob (dim k n : nat) (g : rng T)
    (sample : list nat -> tensor T) (log_prob : tensor T -> tensor T) :
  1 <= k ->
  shape (sample [n]) = [n; dim] ->
  shape (log_prob (sample [n])) = [n; dim] ->
  exists self g' s p,
    init Normal dim k None (Some (Distribution sample log_prob)) g = Ok (self, g') /\
    length (flows self) = k /\
    sample_log_prob self n = Ok (s, p) /\
    shape s = [n; dim] /\ shape p = [n].
Proof.
  intros Hk Hs Hlp.
  destruct (create_layers_wf dim k g) as (fs & g' & Efs & Lfs & Hfs).
  assert (Elp0 : exists lp0, tf_reduce_sum (log_prob (sample [n])) 1 false = Ok lp0 /\ shape lp0 = [n]).
  { unfold tf_reduce_sum. rewrite Hlp. simpl. eexists; split; reflexivity. }
  destruct Elp0 as (lp0 & Elp0 & Slp0).
  destruct (layer_loop_shapes n dim fs lp0 (sample [n]) Hfs Hs Slp0) as (p & s & E & Ss & Sp).
  unfold init. rewrite Efs. cbn [bind].
  eexists; exists g', s, p. split; [reflexivity|]. split; [exact Lfs|].
  split; [|split; assumption].
  unfold sample_log_prob, base_sample_log_prob. cbn [base_dist flows].
  destruct fs as [|F0 fs0]; [simpl in Lfs; lia|].
  cbn [py_index nth_error bind].
  inversion Hfs as [|? ? HF0 _]; subst.
  assert (H1 : PlanarFlow.is_single_flow F0 = true).
  { unfold PlanarFlow.is_single_flow. destruct HF0 as (_ & _ & _ & _ & ->). reflexivity. }
  rewrite H1, Elp0. cbn [bind]. exact E.
Qed.

End FlowRVEdges.
Section MultiFlowFacts.
Context {T : Type} {ST : Scalar T}.
Import FlowRandomVariable.

Lemma tf_add_same (a c : tensor T) sh :
  shape a = sh -> shape c = sh -> exists r, tf_add a c = Ok r /\ shape r = sh.
Proof.
  intros Ha Hc. unfold tf_add, tf_binop, broadcast_shape. rewrite Ha, Hc.
  assert (H : forall l, broadcast_rev l l = Ok l).
  { induction l as [|x l IH]; simpl; [reflexivity|]. now rewrite bdim_same, IH. }
  rewrite H. simpl. rewrite rev_involutive. eexists; split; reflexivity.
Qed.

(** Multi-flow layers on batches of more than one vector keep all shapes. *)
Lemma multi_loop_shapes n B d stack : forall (lp x : tensor T),
  Forall (fun F => wf_flow F n d) stack -> n <> 1 -> B <> 1 ->
  shape x = [n; B; d] -> shape lp = [n; B] ->
  exists lp' x',
    for_each flow_body stack (x, lp) = Ok (x', lp') /\
    shape x' = [n; B; d] /\ shape lp' = [n; B].
Proof.
  induction stack as [|F stack IH]; intros lp x Hwf Hn HB Hx Hlp.
  - exists lp, x. repeat split; assumption.
  - inversion Hwf as [|? ? HF Hrest]; subst.
    destruct (ldj_multi F n B d x HF Hn Hx) as (l & El & Sl & _).
    assert (Sl' : shape l = [n; B]).
    { rewrite Sl. simpl. apply Nat.eqb_neq in Hn, HB. now rewrite Hn, HB. }
    destruct (tf_add_same lp l [n; B] Hlp Sl') as (lp1 & Elp & Slp).
    destruct (transform_multi F n B d x HF Hn Hx) as (x1 & Ex & Sx & _).
    destruct (IH lp1 x1 Hrest Hn HB Sx Slp) as (lp' & x' & E & S1 & S2).
    exists lp', x'. split; [|split; assumption].
    cbn [for_each flow_body]. rewrite El. cbn [bind]. rewrite Elp. cbn [bind].
    rewrite Ex. cbn [bind]. exact E.
Qed.

Lemma tf_add_column_row (lp l : tensor T) n :
  shape lp = [n; 1] \/ shape lp = [n; n] -> shape l = [n] ->
  exists r, tf_add lp l = Ok r /\ shape r = [n; n].
Proof.
  intros Hlp Hl. unfold tf_add, tf_binop, broadcast_shape. rewrite Hl.
  destruct Hlp as [-> | ->]; simpl.
  - rewrite bdim_1_l. simpl. eexists; split; reflexivity.
  - rewrite bdim_same. simpl. eexists; split; reflexivity.
Qed.

(** With one vector per flow the squeezed log-det-Jacobian has lost the
    sample axis, and adding it broadcasts the log-density to [[n; n]]. *)
Lemma one_sample_loop_shapes n d stack : forall (lp x : tensor T),
  Forall (fun F => wf_flow F n d) stack -> n <> 1 ->
  shape x = [n; 1; d] -> shape lp = [n; 1] \/ shape lp = [n; n] ->
  exists lp' x',
    for_each flow_body stack (x, lp) = Ok (x', lp') /\
    shape x' = [n; 1; d] /\
    shape lp' = match stack with [] => shape lp | _ => [n; n] end.
Proof.
  induction stack as [|F stack IH]; intros lp x Hwf Hn Hx Hlp.
  - exists lp, x. repeat split; assumption.
  - inversion Hwf as [|? ? HF Hrest]; subst.
    destruct (ldj_multi F n 1 d x HF Hn Hx) as (l & El & Sl & _).
    assert (Sl' : shape l = [n]).
    { rewrite Sl. simpl. apply Nat.eqb_neq in Hn. now rewrite Hn. }
    destruct (tf_add_column_row lp l n Hlp Sl') as (lp1 & Elp & Slp).
    destruct (transform_multi F n 1 d x HF Hn Hx) as (x1 & Ex & Sx & _).
    destruct (IH lp1 x1 Hrest Hn Sx (or_intror Slp)) as (lp' & x' & E & S1 & S2).
    exists lp', x'. split; [|split; [assumption|]].
    + cbn [for_each flow_body]. rewrite El. cbn [bind]. rewrite Elp. cbn [bind].
      rewrite Ex. cbn [bind]. exact E.
    + rewrite S2. destruct stack; [exact Slp | reflexivity].
Qed.

Lemma multi_flow_shapes (self : FlowRandomVariable.t T) (N d B : nat)
    (sample : list nat -> tensor T) (log_prob : tensor T -> tensor T) :
  flows self <> [] ->
  Forall (fun F => wf_flow F N d) (flows self) -> N <> 1 ->
  base_dist self = Distribution sample log_prob ->
  shape (sample [N; B]) = [N; B; d] ->
  shape (log_prob (sample [N; B])) = [N; B; d] ->
  exists s p, sample_log_prob self B = Ok (s, p) /\
    shape s = [N; B; d] /\
    shape p = (if B =? 1 then [N; N] else [N; B]).
Proof.
  intros Hne Hwf HN Hbd Hs Hlp.
  assert (Elp0 : exists lp0, tf_reduce_sum (log_prob (sample [N; B])) 2 false = Ok lp0
                             /\ shape lp0 = [N; B]).
  { unfold tf_reduce_sum. rewrite Hlp. simpl. eexists; split; reflexivity. }
  destruct Elp0 as (lp0 & Elp0 & Slp0).
  assert (Ebase : base_sample_log_prob self B = Ok (sample [N; B], lp0)).
  { unfold base_sample_log_prob. rewrite Hbd.
    destruct (flows self) as [|F0 fs0]; [congruence|].
    cbn [py_index nth_error bind].
    inversion Hwf as [|? ? HF0 _]; subst.
    unfold PlanarFlow.is_single_flow, PlanarFlow.get_flow_number.
    destruct HF0 as (_ & _ & _ & _ & ->).
    apply Nat.eqb_neq in HN. rewrite HN, Elp0. reflexivity. }
  unfold sample_log_prob. rewrite Ebase. cbn [bind].
  change (for_each _ (flows self) (sample [N; B], lp0))
    with (for_each flow_body (flows self) (sample [N; B], lp0)).
  destruct (Nat.eqb_spec B 1) as [->|HB].
  - destruct (one_sample_loop_shapes N d (flows self) lp0 (sample [N; 1]) Hwf HN Hs (or_introl Slp0))
      as (p & s & E & Ss & Sp).
    exists s, p. split; [exact E|]. split; [exact Ss|].
    rewrite Sp. destruct (flows self); [congruence | reflexivity].
  - destruct (multi_loop_shapes N B d (flows self) lp0 (sample [N; B]) Hwf HN HB Hs Slp0)
      as (p & s & E & Ss & Sp).
    exists s, p. split; [exact E|]. split; assumption.
Qed.

(** X7.  A variable over [n_flows = N > 1] parallel flows of dimension [d],
    with a base distribution giving samples of shape [[N; B; d]]: sampling
    never raises and the samples have shape [[N; B; d]].  The log-density
    has shape [[N; B]] for [B > 1] samples per flow; for [B = 1] it has
    shape [[N; N]]. *)
Theorem multi_flow_sample_log_prob (self : FlowRandomVariable.t T) (N d B : nat)
    (sample : list nat -> tensor T) (log_prob : tensor T -> tensor T) :
  flows self <> [] ->
  Forall (fun F => wf_flow F N d) (flows self) -> N <> 1 ->
  base_dist self = Distribution sample log_prob ->
  shape (sample [N; B]) = [N; B; d] ->
  shape (log_prob (sample [N; B])) = [N; B; d] ->
  exists s p, sample_log_prob self B = Ok (s, p) /\
    shape s = [N; B; d] /\
    shape p = (if B =? 1 then [N; N] else [N; B]).
Proof. apply multi_flow_shapes. Qed.

End MultiFlowFacts.
Section ParamFacts.
Context {T : Type} {ST : Scalar T}.
Import FlowRandomVariable.

Lemma concat_get_rows n (ts : list (tensor T)) :
  Forall (fun t => shape t = [n]) ts ->
  forall k tk, nth_error ts k = Some tk ->
  forall r, r < n -> concat_get 0 ts [k * n + r] = get tk [r].
Proof.
  induction 1 as [|t ts Ht Hts IH]; intros k tk Hk r Hr.
  - destruct k; discriminate.
  - destruct k as [|k]; simpl in Hk.
    + inversion Hk; subst tk. simpl. rewrite Ht. simpl.
      destruct (Nat.ltb_spec r n); [reflexivity | lia].
    + cbn [concat_get nth]. rewrite Ht. cbn [nth].
      destruct (Nat.ltb_spec (S k * n + r) n) as [Hlt|Hge]; [simpl in Hlt; lia|].
      unfold replace_at. cbn [firstn skipn app].
      replace (S k * n + r - n) with (k * n + r) by (simpl; lia).
      now apply IH.
Qed.

Lemma tf_concat_rows n (ts : list (tensor T)) :
  ts <> [] -> Forall (fun t => shape t = [n]) ts ->
  exists r, tf_concat ts 0 = Ok r /\ shape r = [n * length ts] /\
    forall k tk, nth_error ts k = Some tk ->
    forall i, i < n -> get r [k * n + i] = get tk [i].
Proof.
  intros Hne Hall.
  assert (Hsum : list_sum (map (fun t => nth 0 (shape t) 0) ts) = n * length ts).
  { clear -Hall. induction Hall as [|t ts Ht _ IH]; simpl; [lia|].
    rewrite IH, Ht. simpl. lia. }
  destruct ts as [|t0 ts0]; [congruence|].
  assert (Ht0 : shape t0 = [n]) by now inversion Hall.
  assert (Hchk : forallb (fun t => (length (shape t) =? length (shape t0))
                                   && shape_eqb (replace_at 0 0 (shape t))
                                                (replace_at 0 0 (shape t0))) (t0 :: ts0) = true).
  { apply forallb_forall. intros t Hin. rewrite Forall_forall in Hall.
    rewrite (Hall t Hin), Ht0. reflexivity. }
  unfold tf_concat. rewrite Hchk, Hsum, Ht0.
  eexists; split; [reflexivity|]. cbn [shape get]. split; [reflexivity|].
  intros k tk Hk i Hi. now apply (concat_get_rows n (t0 :: ts0) Hall).
Qed.

Lemma Forall_map_shape {A} (f : A -> tensor T) (P : A -> Prop) sh (l : list A) :
  (forall a, P a -> shape (f a) = sh) -> Forall P l ->
  Forall (fun t => shape t = sh) (map f l).
Proof.
  intros H Hl. induction Hl; simpl; constructor; auto.
Qed.

(** X8.  When [num_layers] is the number of flows, [get_all_flow_params] lays
    the parameters side by side in layer order: columns
    [i * d .. (i + 1) * d - 1] of the first two results are [w] and [u] of
    flow [i], and entries [i * n .. (i + 1) * n - 1] of the third are its
    [b]. *)
Theorem get_all_flow_params_layout (self : FlowRandomVariable.t T) (n d : nat) :
  flows self <> [] ->
  num_layers self = length (flows self) ->
  Forall (fun F => wf_flow F n d) (flows self) ->
  exists all_w all_u all_b,
    get_all_flow_params self = Ok (all_w, all_u, all_b) /\
    shape all_w = [n; d * num_layers self] /\
    shape all_u = [n; d * num_layers self] /\
    shape all_b = [n * num_layers self] /\
    forall i F, nth_error (flows self) i = Some F ->
      (forall r c, c < d ->
         get all_w [r; i * d + c] = get (PlanarFlow.w F) [r; c] /\
         get all_u [r; i * d + c] = get (PlanarFlow.u F) [r; c]) /\
      (forall r, r < n -> get all_b [i * n + r] = get (PlanarFlow.b F) [r]).
Proof.
  intros Hne Hnl Hwf.
  assert (Hmap : forall f : PlanarFlow.t T -> tensor T, map f (flows self) <> []).
  { intros f. destruct (flows self); [congruence | discriminate]. }
  destruct (tf_concat_chunks n d (map PlanarFlow.w (flows self)) (Hmap _))
    as (all_w & Ew & Sw & Gw).
  { apply (Forall_map_shape _ (fun F => wf_flow F n d)); [|assumption].
    intros F HF. apply HF. }
  destruct (tf_concat_chunks n d (map PlanarFlow.u (flows self)) (Hmap _))
    as (all_u & Eu & Su & Gu).
  { apply (Forall_map_shape _ (fun F => wf_flow F n d)); [|assumption].
    intros F HF. apply HF. }
  destruct (tf_concat_rows n (map PlanarFlow.b (flows self)) (Hmap _))
    as (all_b & Eb & Sb & Gb).
  { apply (Forall_map_shape _ (fun F => wf_flow F n d)); [|assumption].
    intros F HF. apply HF. }
  rewrite length_map in Sw, Su, Sb.
  exists all_w, all_u, all_b.
  split; [|split; [|split; [|split]]].
  - unfold get_all_flow_params. rewrite !map_result_index, Hnl, Nat.leb_refl, firstn_all.
    cbn [bind]. rewrite Ew. cbn [bind]. rewrite Eu. cbn [bind]. rewrite Eb. reflexivity.
  - now rewrite Hnl.
  - now rewrite Hnl.
  - now rewrite Hnl.
  - intros i F Hi. split.
    + intros r c Hc. split.
      * apply Gw; [|assumption]. now apply map_nth_error.
      * apply Gu; [|assumption]. now apply map_nth_error.
    + intros r Hr. apply Gb; [|assumption]. now apply map_nth_error.
Qed.

End ParamFacts.
Section ConditionalEdges.
Context {T : Type} {ST : Scalar T}.
Variable Normal : nat -> base_distribution T.
Variable MLP : tensor T -> list nat -> option (T -> T) -> rng T -> tensor T * rng T.
Import FlowConditionalVariable.

(** X9.  A covariate that is not at least a matrix is rejected before anything
    is built: reading [y.shape[1]] raises [IndexError]. *)
Theorem init_rejects_vector (dim_x L : nat) (y : tensor T) (hidden : list nat)
    (bd : option (base_distribution T)) (g : rng T) :
  length (shape y) <= 1 ->
  init Normal MLP dim_x y L hidden bd g = Err IndexError.
Proof.
  intros H. unfold init.
  destruct (shape y) as [|a [|c sh]]; simpl in *; try reflexivity. lia.
Qed.

Lemma slice_flow_u_bar all_w all_u all_b N dim_x L fs g i :
  shape all_w = [N; dim_x * L] -> shape all_u = [N; dim_x * L] ->
  shape all_b = [N; L] -> i < L ->
  exists F, slice_flow all_w all_u all_b dim_x (fs, g) i = Ok (fs ++ [F], g) /\
    shape (PlanarFlow.u_bar F) = [N; dim_x].
Proof.
  intros Hw Hu Hb Hi. unfold slice_flow.
  assert (Hle : i * dim_x + dim_x <= dim_x * L) by nia.
  destruct (tf_slice_columns all_w N _ (i * dim_x) dim_x Hw Hle) as (w & Ew & Sw & _).
  destruct (tf_slice_columns all_u N _ (i * dim_x) dim_x Hu Hle) as (u & Eu & Su & _).
  destruct (tf_slice_column all_b N L i Hb Hi) as (b1 & Eb & _).
  rewrite Ew, Eu, Eb. cbn [bind].
  destruct (init_given (PlanarFlow.TensorDim (tf_squeeze b1)) w (tf_squeeze b1) u g N dim_x Sw Su)
    as (F & EF & _ & _ & _ & _ & _ & HFub & _).
  rewrite EF. cbn [bind]. exists F. split; [reflexivity | exact HFub].
Qed.

Lemma slice_loop_u_bar all_w all_u all_b N dim_x L g :
  shape all_w = [N; dim_x * L] -> shape all_u = [N; dim_x * L] ->
  shape all_b = [N; L] ->
  forall k, k <= L ->
  exists fs, for_each (slice_flow all_w all_u all_b dim_x) (seq 0 k) ([], g) = Ok (fs, g) /\
    Forall (fun F => shape (PlanarFlow.u_bar F) = [N; dim_x]) fs.
Proof.
  intros Hw Hu Hb. induction k as [|k IH]; intros Hk.
  - exists []. split; [reflexivity | constructor].
  - destruct IH as (fs & Efs & Pfs); [lia|].
    rewrite seq_S, for_each_app, Efs. cbn [bind for_each Nat.add].
    destruct (slice_flow_u_bar all_w all_u all_b N dim_x L fs g k Hw Hu Hb) as (Fk & EF & PF); [lia|].
    rewrite EF. cbn [bind]. exists (fs ++ [Fk]). split; [reflexivity|].
    apply Forall_app. split; [assumption | repeat constructor; assumption].
Qed.

(** What the constructor leaves, for more than one row of [y]: the flows
    are well-formed multi-flows over the rows of [y], and the inner
    variable has kept [num_layers = 1]. *)
Lemma init_wf y N dy dim_x L hidden bd g :
  shape y = [N; dy] -> N <> 1 ->
  (forall x layers act g', shape (fst (MLP x layers act g')) = [hd 0 (shape x); last layers 0]) ->
  exists self g',
    init Normal MLP dim_x y L hidden bd g = Ok (self, g') /\
    shape (w self) = [N; dim_x * L] /\
    length (FlowRandomVariable.flows (variable self)) = L /\
    FlowRandomVariable.num_layers (variable self) = 1 /\
    FlowRandomVariable.base_dist (variable self) =
      match bd with None => Normal dim_x | Some d => d end /\
    Forall (fun F => wf_flow F N dim_x) (FlowRandomVariable.flows (variable self)) /\
    (forall i F, nth_error (FlowRandomVariable.flows (variable self)) i = Some F ->
       is_chunk (w self) (u self) (b self) N dim_x i F).
Proof.
  intros Hy HN HM. unfold init, set_up_flows. rewrite Hy. cbn [py_index nth_error bind].
  pose proof (HM y (hidden ++ [dim_x * L]) (Some s_tanh) g) as Hw.
  destruct (MLP y (hidden ++ [dim_x * L]) (Some s_tanh) g) as [all_w g1].
  pose proof (HM y (hidden ++ [dim_x * L]) (Some s_tanh) g1) as Hu.
  destruct (MLP y (hidden ++ [dim_x * L]) (Some s_tanh) g1) as [all_u g2].
  pose proof (HM y (hidden ++ [L]) (Some s_tanh) g2) as Hb.
  destruct (MLP y (hidden ++ [L]) (Some s_tanh) g2) as [all_b g3].
  rewrite Hy, last_last in Hw, Hu, Hb. cbn [fst hd] in Hw, Hu, Hb.
  destruct (slice_loop all_w all_u all_b N dim_x L g3 Hw Hu Hb L (le_n L))
    as (fs & Efs & Lfs & Pfs).
  destruct (slice_loop_u_bar all_w all_u all_b N dim_x L g3 Hw Hu Hb L (le_n L))
    as (fs' & Efs' & Ufs).
  rewrite Efs in Efs'. inversion Efs'; subst fs'. clear Efs'.
  rewrite Efs. cbn [bind FlowRandomVariable.init].
  eexists; eexists; split; [reflexivity|].
  cbn [w u b variable FlowRandomVariable.flows FlowRandomVariable.num_layers
       FlowRandomVariable.base_dist fst].
  split; [exact Hw|].
  split; [exact Lfs|]. split; [reflexivity|]. split; [reflexivity|].
  split; [|exact Pfs].
  apply Forall_forall. intros F HF.
  destruct (In_nth_error _ _ HF) as (i & Hi).
  destruct (Pfs i F Hi) as (Hn & Sw & Su & Sb & _).
  rewrite Forall_forall in Ufs.
  unfold wf_flow. rewrite Sw, Su, Sb, Hn, (Ufs F HF). simpl.
  apply Nat.eqb_neq in HN. rewrite HN. repeat split.
Qed.

(** X10.  A conditional variable over [N > 1] rows of [y] with at least one
    layer can be sampled: with a base distribution giving samples of shape
    [[N; B; dim_x]] the constructor and then [sample_log_prob] return, the
    samples have shape [[N; B; dim_x]], and the log-density has shape
    [[N; B]] for [B > 1] and [[N; N]] for [B = 1]. *)
Theorem conditional_sample_log_prob (y : tensor T) (N dy dim_x L B : nat)
    (hidden : list nat) (sample : list nat -> tensor T)
    (log_prob : tensor T -> tensor T) (g : rng T) :
  shape y = [N; dy] -> N <> 1 -> 1 <= L ->
  (forall x layers act g', shape (fst (MLP x layers act g')) = [hd 0 (shape x); last layers 0]) ->
  shape (sample [N; B]) = [N; B; dim_x] ->
  shape (log_prob (sample [N; B])) = [N; B; dim_x] ->
  exists self g' s p,
    init Normal MLP dim_x y L hidden (Some (Distribution sample log_prob)) g = Ok (self, g') /\
    sample_log_prob self B = Ok (s, p) /\
    shape s = [N; B; dim_x] /\
    shape p = (if B =? 1 then [N; N] else [N; B]).
Proof.
  intros Hy HN HL HM Hs Hlp.
  destruct (init_wf y N dy dim_x L hidden (Some (Distribution sample log_prob)) g Hy HN HM)
    as (self & g' & E & _ & Hlen & _ & Hbd & Hwf & _).
  destruct (multi_flow_shapes (variable self) N dim_x B sample log_prob) as (s & p & Es & Ss & Sp);
    try assumption.
  { intros Hnil. rewrite Hnil in Hlen. simpl in Hlen. lia. }
  exists self, g', s, p. split; [exact E|]. split; [exact Es|]. split; assumption.
Qed.


End ConditionalEdges.
Section DynaEdges.
Context {T : Type} {ST : Scalar T}.
Variable Normal : nat -> base_distribution T.
Import DynaFlowRandomVariable.

Lemma setup_flow_layers_wf dim nl pairs : forall (g : rng T),
  exists stacks g', setup_flow_layers dim nl pairs g = Ok (stacks, g') /\
    length stacks = pairs /\
    Forall (fun st => length st = nl) stacks /\
    Forall (Forall (fun F => wf_flow F 1 (2 * dim))) stacks.
Proof.
  induction pairs as [|pairs IH]; intros g.
  - exists [], g. repeat split; constructor.
  - destruct (create_layers_wf (2 * dim) nl g) as (st & g1 & Est & Lst & Hst).
    destruct (IH g1) as (stacks & g2 & E & Hlen & Hnl & Hwf).
    exists (st :: stacks), g2. cbn [setup_flow_layers]. rewrite Est. cbn [bind].
    rewrite E. cbn [bind]. split; [reflexivity|]. split; [simpl; lia|].
    split; constructor; assumption.
Qed.

(** Shapes of a run of the chain. *)
Lemma chain_shapes (self : DynaFlowRandomVariable.t T) (n time : nat)
    (sample : list nat -> tensor T) (log_prob : tensor T -> tensor T) :
  1 <= time ->
  length (flows self) = time - 1 ->
  Forall (Forall (fun F => wf_flow F 1 (2 * dim self))) (flows self) ->
  base_dist self = Distribution sample log_prob ->
  shape (sample [n]) = [n; dim self * time] ->
  shape (log_prob (sample [n])) = [n; dim self * time] ->
  exists final lp,
    sample_log_prob self n = Ok (final, lp) /\
    shape final = [n; dim self * time] /\ shape lp = [n].
Proof.
  intros Ht Hlen Hwf Hbd Hs Hlp.
  set (samples := sample [n]) in *.
  assert (Elp0 : exists lp0, tf_reduce_sum (log_prob samples) 1 false = Ok lp0 /\ shape lp0 = [n]).
  { unfold tf_reduce_sum. rewrite Hlp. simpl. eexists; split; reflexivity. }
  destruct Elp0 as (lp0 & Elp0 & Slp0).
  destruct (tf_slice_block samples n (dim self * time) 0 (dim self) Hs) as (pre0 & Epre0 & Spre0 & _); [nia|].
  destruct (time_loop n (dim self) (dim self * time) samples (flows self) Hs 0 [] pre0 lp0 Hwf)
    as (outs & last & lp' & Eloop & _ & Hlo & Hsh & Hlast & Slp'); [rewrite Hlen; nia | assumption | assumption |].
  assert (Hall : Forall (fun o => shape o = [n; dim self]) (outs ++ [last])).
  { apply Forall_app. split; [assumption | repeat constructor; assumption]. }
  destruct (tf_concat_chunks n (dim self) (outs ++ [last])) as (final & Efinal & Sfinal & _);
    [now destruct outs | assumption |].
  exists final, lp'. split; [|split; [|exact Slp']].
  - unfold sample_log_prob. rewrite Hbd. cbn [dist_sample dist_log_prob bind].
    fold samples. rewrite Elp0. cbn [bind]. cbv zeta. rewrite Epre0. cbn [bind].
    unfold enumerate. rewrite Eloop. cbn [bind app]. rewrite Efinal. reflexivity.
  - rewrite Sfinal, length_app, Hlo, Hlen. simpl. f_equal. f_equal. nia.
Qed.

(** X12.  The constructor and sampling together: for [time >= 1] the object has
    [time - 1] stacks of [num_layers] fresh single flows of dimension
    [2 * dim] and [full_dim = dim * time], and with a base distribution
    giving samples of shape [[n; dim * time]] its [sample_log_prob]
    returns samples of that shape and a log-density of shape [[n]]. *)
Theorem constructed_chain_samples (dim time nl n : nat) (g : rng T)
    (sample : list nat -> tensor T) (log_prob : tensor T -> tensor T) :
  1 <= time ->
  shape (sample [n]) = [n; dim * time] ->
  shape (log_prob (sample [n])) = [n; dim * time] ->
  exists self g' final lp,
    init Normal dim time nl (Some (Distribution sample log_prob)) g = Ok (self, g') /\
    full_dim self = dim * time /\
    length (flows self) = time - 1 /\
    Forall (fun st => length st = nl) (flows self) /\
    sample_log_prob self n = Ok (final, lp) /\
    shape final = [n; dim * time] /\ shape lp = [n].
Proof.
  intros Ht Hs Hlp.
  destruct (setup_flow_layers_wf dim nl (time - 1) g) as (stacks & g' & E & Hlen & Hnl & Hwf).
  unfold init. rewrite E. cbn [bind].
  set (self := mk (dim * time) dim time nl (Distribution sample log_prob) stacks).
  destruct (chain_shapes self n time sample log_prob Ht Hlen Hwf eq_refl Hs Hlp)
    as (final & lp & Es & Sf & Sl).
  exists self, g', final, lp. repeat split; assumption.
Qed.

(** X13.  A chain of a single time step has no pair to transform: the samples
    returned are the base samples and the log-density is the base
    log-density summed over the coordinates. *)
Theorem single_step_chain (self : DynaFlowRandomVariable.t T) (n : nat)
    (sample : list nat -> tensor T) (log_prob : tensor T -> tensor T) :
  flows self = [] ->
  base_dist self = Distribution sample log_prob ->
  shape (sample [n]) = [n; dim self] ->
  shape (log_prob (sample [n])) = [n; dim self] ->
  exists final lp,
    sample_log_prob self n = Ok (final, lp) /\
    tf_reduce_sum (log_prob (sample [n])) 1 false = Ok lp /\
    shape final = [n; dim self] /\
    forall r j, j < dim self -> get final [r; j] = get (sample [n]) [r; j].
Proof.
  intros Hfl Hbd Hs Hlp.
  assert (Elp0 : exists lp0, tf_reduce_sum (log_prob (sample [n])) 1 false = Ok lp0).
  { unfold tf_reduce_sum. rewrite Hlp. simpl. eexists; reflexivity. }
  destruct Elp0 as (lp0 & Elp0).
  destruct (tf_slice_block (sample [n]) n (dim self) 0 (dim self) Hs) as (pre0 & Epre0 & Spre0 & Gpre0); [lia|].
  destruct (tf_concat_chunks n (dim self) [pre0]) as (final & Efinal & Sfinal & Gfinal);
    [discriminate | repeat constructor; assumption |].
  exists final, lp0. split; [|split; [exact Elp0|split]].
  - unfold sample_log_prob. rewrite Hbd, Hfl. cbn [dist_sample dist_log_prob bind].
    rewrite Elp0. cbn [bind]. cbv zeta. rewrite Epre0.
    cbn [bind enumerate length seq combine for_each app]. rewrite Efinal. reflexivity.
  - rewrite Sfinal. simpl. now rewrite Nat.mul_1_r.
  - intros r j Hj. change (get (sample [n]) [r; j]) with (get (sample [n]) [r; 0 + j]).
    rewrite <- (Gpre0 r j). apply (Gfinal 0 pre0 eq_refl r j Hj).
Qed.

End DynaEdges.
Section EdgeWitnesses.
Open Scope R_scope.

Lemma init_draws_parameters_witness :
  exists F g',
    PlanarFlow.init (PlanarFlow.IntDim 2) None None None ex_rng = Ok (F, g') /\
    wf_flow F 1 2 /\ get (PlanarFlow.b F) [0%nat] = ex_rng 2%nat.
Proof.
  destruct (init_draws_parameters 2 None None None ex_rng (or_introl eq_refl))
    as (F & g' & E & Hwf & _ & Hb & _).
  exists F, g'. split; [exact E|]. split; [exact Hwf | exact Hb].
Defined.

Lemma init_rejects_shapes_witness :
  PlanarFlow.init (PlanarFlow.IntDim 3) (Some ex_vec) (Some ex_b) (Some ex_vec) ex_rng
    = Err ValueError.
Proof.
  apply (init_rejects_shapes (PlanarFlow.IntDim 3) ex_vec ex_b ex_vec ex_rng 0 3 3).
  right. split; reflexivity.
Defined.

Lemma transform_rejects_width_witness :
  PlanarFlow.transform ex_flow ex_x_wide = Err ValueError /\
  PlanarFlow.log_det_jacobian ex_flow ex_x_wide = Err ValueError.
Proof.
  apply (transform_rejects_width ex_flow 1 2 3 1 ex_x_wide ex_flow_wf eq_refl).
  discriminate.
Defined.

Lemma sample_log_prob_transform_witness :
  exists sk, FlowRandomVariable.transform ex_var_pre ex_x3 = Ok sk.
Proof.
  destruct (layer_loop_shapes 3 2 [ex_flow] ex_lp3 ex_x3) as (pk & sk & E & _);
    [repeat constructor | reflexivity | reflexivity |].
  exists sk.
  apply (sample_log_prob_transform ex_var_pre 0 ex_x3 ex_lp3 sk pk eq_refl).
  exact E.
Defined.

Lemma constructed_sample_log_prob_witness :
  exists self g' s p,
    FlowRandomVariable.init ex_normal 2 1 None (Some (ex_normal 2)) ex_rng = Ok (self, g') /\
    length (FlowRandomVariable.flows self) = 1%nat /\
    FlowRandomVariable.sample_log_prob self 3 = Ok (s, p) /\
    shape s = [3; 2]%nat /\ shape p = [3%nat].
Proof.
  apply (constructed_sample_log_prob ex_normal 2 1 3 ex_rng (ex_sample 2) ex_log_prob);
    [lia | reflexivity | reflexivity].
Defined.

Lemma multi_flow_sample_log_prob_witness :
  exists s p, FlowRandomVariable.sample_log_prob ex_var_multi 1 = Ok (s, p) /\
    shape s = [2; 1; 2]%nat /\ shape p = [2; 2]%nat.
Proof.
  apply (multi_flow_sample_log_prob ex_var_multi 2 2 1 (ex_sample 2) ex_log_prob);
    [discriminate | repeat constructor | discriminate | reflexivity | reflexivity | reflexivity].
Defined.

Lemma get_all_flow_params_layout_witness :
  exists all_w all_u all_b,
    FlowRandomVariable.get_all_flow_params ex_var_two = Ok (all_w, all_u, all_b) /\
    shape all_w = [1; 4]%nat /\ shape all_b = [2%nat].
Proof.
  destruct (get_all_flow_params_layout ex_var_two 1 2)
    as (all_w & all_u & all_b & E & Sw & _ & Sb & _);
    [discriminate | reflexivity | repeat constructor |].
  exists all_w, all_u, all_b. split; [exact E|]. split; [exact Sw | exact Sb].
Defined.

Lemma init_rejects_vector_witness :
  FlowConditionalVariable.init ex_normal ex_mlp 2 ex_vec 2 [4%nat] None ex_rng
    = Err IndexError.
Proof.
  apply (init_rejects_vector ex_normal ex_mlp 2 2 ex_vec [4%nat] None ex_rng).
  simpl. lia.
Defined.

Lemma conditional_sample_log_prob_witness :
  exists self g' s p,
    FlowConditionalVariable.init ex_normal ex_mlp 2 ex_y 2 [4%nat]
      (Some (Distribution (ex_sample 2) ex_log_prob)) ex_rng = Ok (self, g') /\
    FlowConditionalVariable.sample_log_prob self 3 = Ok (s, p) /\
    shape s = [2; 3; 2]%nat /\ shape p = [2; 3]%nat.
Proof.
  apply (conditional_sample_log_prob ex_normal ex_mlp ex_y 2 3 2 2 3 [4%nat]
           (ex_sample 2) ex_log_prob ex_rng);
    [reflexivity | discriminate | lia | intros; reflexivity | reflexivity | reflexivity].
Defined.


Lemma constructed_chain_samples_witness :
  exists self g' final lp,
    DynaFlowRandomVariable.init ex_normal 1 3 2 (Some (Distribution (ex_sample 3) ex_log_prob)) ex_rng
      = Ok (self, g') /\
    DynaFlowRandomVariable.sample_log_prob self 4 = Ok (final, lp) /\
    shape final = [4; 3]%nat /\ shape lp = [4%nat].
Proof.
  destruct (constructed_chain_samples ex_normal 1 3 2 4 ex_rng (ex_sample 3) ex_log_prob)
    as (self & g' & final & lp & E & _ & _ & _ & Es & Sf & Sl);
    [lia | reflexivity | reflexivity |].
  exists self, g', final, lp. repeat split; assumption.
Defined.

Lemma single_step_chain_witness :
  exists final lp,
    DynaFlowRandomVariable.sample_log_prob ex_dyna_single 3 = Ok (final, lp) /\
    shape final = [3; 2]%nat.
Proof.
  destruct (single_step_chain ex_dyna_single 3 (ex_sample 2) ex_log_prob)
    as (final & lp & E & _ & Sf & _);
    [reflexivity | reflexivity | reflexivity | reflexivity |].
  exists final, lp. split; assumption.
Defined.

End EdgeWitnesses.
